(** * ycmd [request_wrap.py]: the request view and its derived fields

    A shallow embedding of [RequestWrap] (ycmd/request_wrap.py) and of the
    two module-level functions [CompletionStartColumn] and
    [CompletionStartCodepoint], followed by the properties of the view:
    lookup, override, containment, fallback lookup, memoization and the
    derived fields [line_value], [start_column], [start_codepoint],
    [query] and [first_filetype].

    Python values are modelled by an inductive type of JSON-like values
    (floats are left out) with the semantics of Python 3, dictionaries by
    [gmap], exceptions by a result type, and the mutable object by
    explicit state passing.  The functions imported from [ycmd.utils],
    [ycmd.identifier_utils] and [ycmd.request_validation] are
    collaborators of the class and are taken as the fields of a type
    class: every property is proved for all of their instances, and
    evaluated on concrete requests at the instance of module [Utils].

    The operations that the specification calls [get], [set], [has] and
    [get_or] are the methods [__getitem__], [__setitem__], [__contains__]
    and [get] of the class. *)

From Stdlib Require Import ZArith Lia Ascii String.
From stdpp Require Import gmap strings list fin_maps.

Set Warnings "-register-all".
Set Default Proof Using "Type".
Open Scope Z_scope.

(** ** Python values *)

(** A Python [str] is a sequence of Unicode codepoints; dictionary keys of
    a decoded JSON request are such strings. *)
Abbreviation ustr := (list N).

(** [u "abc"] is the Python string literal ['abc']. *)
Definition u (s : string) : ustr :=
  (λ a, N_of_ascii a) <$> list_ascii_of_string s.
Arguments u : simpl never.

Inductive value : Type :=
  | VNone
  | VBool (b : bool)
  | VInt (z : Z)
  | VStr (s : ustr)
  | VBytes (b : list Byte.byte)
  | VList (l : list value)
  | VDict (d : gmap ustr value).

(** The exceptions that the class and its collaborators raise. *)
Inductive exn : Type :=
  | KeyError
  | IndexError
  | TypeError
  | ValueError
  | UnicodeError
  | ServerError.

Global Instance exn_eq_dec : EqDecision exn.
Proof. solve_decision. Defined.

(** The result of a pure Python expression: a value or a raised exception. *)
Inductive result (A : Type) : Type :=
  | Ok (a : A)
  | Raise (e : exn).
Arguments Ok {A} a.
Arguments Raise {A} e.

Global Instance result_ret : MRet result := λ A a, Ok a.
Global Instance result_bind : MBind result := λ A B f r,
  match r with
  | Ok a => f a
  | Raise e => Raise e
  end.

(** ** Python primitives used by the class *)

(** [bool] is a subclass of [int]: both are accepted as integers. *)
Definition as_int (v : value) : option Z :=
  match v with
  | VInt z => Some z
  | VBool b => Some (Z.b2z b)
  | _ => None
  end.

(** [a - b] *)
Definition py_sub (a b : value) : result value :=
  match as_int a, as_int b with
  | Some x, Some y => Ok (VInt (x - y))
  | _, _ => Raise TypeError
  end.

(** [a + b] *)
Definition py_add (a b : value) : result value :=
  match as_int a, as_int b with
  | Some x, Some y => Ok (VInt (x + y))
  | _, _ =>
    match a, b with
    | VStr s, VStr t => Ok (VStr (s ++ t))
    | VBytes s, VBytes t => Ok (VBytes (s ++ t))
    | VList s, VList t => Ok (VList (s ++ t))
    | _, _ => Raise TypeError
    end
  end.

(** [l[i]] on a sequence: a negative index counts from the end, an index
    outside [-len, len) raises [IndexError]. *)
Definition seq_index {A} (l : list A) (i : Z) : result A :=
  let n := Z.of_nat (length l) in
  let j := if i <? 0 then i + n else i in
  if (0 <=? j) && (j <? n) then
    match l !! Z.to_nat j with
    | Some x => Ok x
    | None => Raise IndexError
    end
  else Raise IndexError.

(** [l[lo:hi]] on a sequence: negative bounds count from the end, and both
    bounds are clamped to [0, len]. *)
Definition slice_bound (n x : Z) : Z :=
  if x <? 0 then Z.max (x + n) 0 else Z.min x n.

Definition seq_slice {A} (l : list A) (lo hi : Z) : list A :=
  let n := Z.of_nat (length l) in
  let lo' := slice_bound n lo in
  let hi' := slice_bound n hi in
  take (Z.to_nat (hi' - lo')) (drop (Z.to_nat lo') l).

(** [c[k]] *)
Definition py_getitem (c k : value) : result value :=
  match c with
  | VList l =>
    match as_int k with
    | Some i => seq_index l i
    | None => Raise TypeError
    end
  | VStr s =>
    match as_int k with
    | Some i => c ← seq_index s i; Ok (VStr [c])
    | None => Raise TypeError
    end
  | VBytes b =>
    match as_int k with
    | Some i => c ← seq_index b i; Ok (VInt (Z.of_N (Byte.to_N c)))
    | None => Raise TypeError
    end
  | VDict d =>
    match k with
    | VStr key =>
      match d !! key with
      | Some v => Ok v
      | None => Raise KeyError
      end
    | VList _ | VDict _ => Raise TypeError
    | _ => Raise KeyError
    end
  | VNone | VBool _ | VInt _ => Raise TypeError
  end.

(** [c[lo:hi]] *)
Definition py_slice (c lo hi : value) : result value :=
  match as_int lo, as_int hi with
  | Some a, Some b =>
    match c with
    | VStr s => Ok (VStr (seq_slice s a b))
    | VBytes s => Ok (VBytes (seq_slice s a b))
    | VList s => Ok (VList (seq_slice s a b))
    | _ => Raise TypeError
    end
  | _, _ => Raise TypeError
  end.

(** ** Collaborators

    The functions that request_wrap.py imports.  They are pure; each may
    raise. *)
Class Collaborators : Type := {
  ByteOffsetToCodepointOffset : value → value → result value;
  CodepointOffsetToByteOffset : value → value → result value;
  ToUnicode : value → result value;
  ToBytes : value → result value;
  SplitLines : value → result value;
  StartOfLongestIdentifierEndingAtIndex : value → value → value → result value;
  EnsureRequestValid : gmap ustr value → result unit;
}.

(** ** The module-level functions *)

Section completion_start.
Context `{Collaborators}.

Definition CompletionStartCodepoint (line_value column_num filetype : value)
  : result value :=
  codepoint_column_num ← ByteOffsetToCodepointOffset line_value column_num;
  unicode_line_value ← ToUnicode line_value;
  index ← py_sub codepoint_column_num (VInt 1);
  start ← StartOfLongestIdentifierEndingAtIndex unicode_line_value index filetype;
  py_add start (VInt 1).

Definition CompletionStartColumn (line_value column_num filetype : value)
  : result value :=
  unicode_line_value ← ToUnicode line_value;
  codepoint ← CompletionStartCodepoint line_value column_num filetype;
  CodepointOffsetToByteOffset unicode_line_value codepoint.
End completion_start.

(** ** The view *)

(** The object's state.  [_request] is never written after construction.
    [getter_calls] is a ghost field, absent from the source: it records the
    key of every getter invocation, most recent first, so that memoization
    can be stated. *)
Record RequestWrap : Type := {
  _request : gmap ustr value;
  _cached_computed : gmap ustr value;
  getter_calls : list ustr;
}.

(** A method of the object: it may change the state, and it returns a
    value or raises; the state changes made before a raise persist.  [None]
    means that the recursion budget of [__getitem__] was exhausted (shown
    below never to happen). *)
Definition M (A : Type) : Type :=
  RequestWrap → option (result A * RequestWrap).

Global Instance M_ret : MRet M := λ A a s, Some (Ok a, s).
Global Instance M_bind : MBind M := λ A B f m s,
  match m s with
  | Some (Ok a, s') => f a s'
  | Some (Raise e, s') => Some (Raise e, s')
  | None => None
  end.

Definition raise {A} (e : exn) : M A := λ s, Some (Raise e, s).

Definition lift {A} (r : result A) : M A := λ s, Some (r, s).

(** [try: body except (e1, e2, ...): handler] *)
Definition try_except {A} (body : M A) (caught : exn → bool) (handler : M A)
  : M A := λ s,
  match body s with
  | Some (Raise e, s') => if caught e then handler s' else Some (Raise e, s')
  | r => r
  end.

(** [self._request[key]] *)
Definition request_lookup (key : ustr) : M value := λ s,
  match _request s !! key with
  | Some v => Some (Ok v, s)
  | None => Some (Raise KeyError, s)
  end.

(** [self._cached_computed[key] = v] *)
Definition cache_store (key : ustr) (v : value) : M unit := λ s,
  Some (Ok (), {| _request := _request s;
                  _cached_computed := <[key := v]> (_cached_computed s);
                  getter_calls := getter_calls s |}).

(** [self._cached_computed.pop(key, None)] *)
Definition cache_pop (key : ustr) : M unit := λ s,
  Some (Ok (), {| _request := _request s;
                  _cached_computed := delete key (_cached_computed s);
                  getter_calls := getter_calls s |}).

Definition note_getter_call (key : ustr) : M unit := λ s,
  Some (Ok (), {| _request := _request s;
                  _cached_computed := _cached_computed s;
                  getter_calls := key :: getter_calls s |}).

(** ** The methods of [RequestWrap]

    The getters and setters call [self[ key ]]; here they take that lookup
    as the argument [self], and [__getitem__] ties the knot. *)

Section methods.
Context `{Collaborators}.

Definition __init__ (request : gmap ustr value) (validate : bool)
  : result RequestWrap :=
  _ ← (if validate then EnsureRequestValid request else Ok ());
  Ok {| _request := request; _cached_computed := ∅; getter_calls := [] |}.

Section getters.
Variable self : ustr → M value.

Definition _CurrentLine : M value :=
  current_file ← request_lookup (u "filepath");
  file_data ← request_lookup (u "file_data");
  file_entry ← lift (py_getitem file_data current_file);
  contents ← lift (py_getitem file_entry (VStr (u "contents")));
  lines ← lift (SplitLines contents);
  line_num ← request_lookup (u "line_num");
  index ← lift (py_sub line_num (VInt 1));
  lift (py_getitem lines index).

Definition _GetCompletionStartColumn : M value :=
  line_value ← self (u "line_value");
  column_num ← self (u "column_num");
  first_filetype ← self (u "first_filetype");
  lift (CompletionStartColumn line_value column_num first_filetype).

Definition _SetCompletionStartColumn (column_num : value) : M unit :=
  _ ← cache_store (u "start_column") column_num;
  line_value ← self (u "line_value");
  codepoint ← lift (ByteOffsetToCodepointOffset line_value column_num);
  _ ← cache_store (u "start_codepoint") codepoint;
  cache_pop (u "query").

Definition _GetCompletionStartCodepoint : M value :=
  line_value ← self (u "line_value");
  column_num ← self (u "column_num");
  first_filetype ← self (u "first_filetype");
  lift (CompletionStartCodepoint line_value column_num first_filetype).

Definition _SetCompletionStartCodepoint (codepoint_offset : value) : M unit :=
  _ ← cache_store (u "start_codepoint") codepoint_offset;
  line_value ← self (u "line_value");
  column ← lift (CodepointOffsetToByteOffset line_value codepoint_offset);
  _ ← cache_store (u "start_column") column;
  cache_pop (u "query").

Definition _Query : M value :=
  line_value ← self (u "line_value");
  start_codepoint ← self (u "start_codepoint");
  lo ← lift (py_sub start_codepoint (VInt 1));
  column_codepoint ← self (u "column_codepoint");
  hi ← lift (py_sub column_codepoint (VInt 1));
  lift (py_slice line_value lo hi).

Definition _Filetypes : M value :=
  path ← self (u "filepath");
  file_data ← self (u "file_data");
  file_entry ← lift (py_getitem file_data path);
  lift (py_getitem file_entry (VStr (u "filetypes"))).

Definition _FirstFiletype : M value :=
  try_except
    (filetypes ← self (u "filetypes");
     lift (py_getitem filetypes (VInt 0)))
    (λ e, bool_decide (e = KeyError) || bool_decide (e = IndexError))
    (mret VNone).

(** The two [lambda] getters of the registry. *)
Definition column_codepoint_getter : M value :=
  line_bytes ← self (u "line_bytes");
  column_num ← self (u "column_num");
  lift (ByteOffsetToCodepointOffset line_bytes column_num).

Definition line_bytes_getter : M value :=
  line_value ← self (u "line_value");
  lift (ToBytes line_value).

(** [self._computed_key]: key ↦ ( getter_method, setter_method ). *)
Definition _computed_key
  : gmap ustr (M value * option (value → M unit)) :=
  list_to_map [
    (u "line_value", (_CurrentLine, None));
    (u "start_codepoint", (_GetCompletionStartCodepoint,
                           Some _SetCompletionStartCodepoint));
    (u "column_codepoint", (column_codepoint_getter, None));
    (u "line_bytes", (line_bytes_getter, None));
    (u "start_column", (_GetCompletionStartColumn,
                        Some _SetCompletionStartColumn));
    (u "query", (_Query, None));
    (u "filetypes", (_Filetypes, None));
    (u "first_filetype", (_FirstFiletype, None))
  ].
End getters.

(** [value = getter(); self._cached_computed[ key ] = value;
    return value] *)
Definition compute_and_cache (key : ustr) (getter : M value) : M value :=
  _ ← note_getter_call key;
  v ← getter;
  _ ← cache_store key v;
  mret v.

(** [self[ key ]], with a budget for the nested [self[ ... ]] calls that
    the getters make. *)
Fixpoint __getitem__ (budget : nat) (key : ustr) : M value :=
  match budget with
  | O => λ _, None
  | S budget' => λ s,
    match _cached_computed s !! key with
    | Some v => Some (Ok v, s)
    | None =>
      match _computed_key (__getitem__ budget') !! key with
      | Some (getter, _) => compute_and_cache key getter s
      | None => request_lookup key s
      end
    end
  end.
Arguments __getitem__ : simpl never.

(** The longest chain of nested lookups is [query] → [start_codepoint] →
    [first_filetype] → [filetypes] → [filepath]. *)
Definition depth : nat := 5.

(** [self[ key ]] as callers and the setters use it. *)
Definition getitem (key : ustr) : M value := __getitem__ depth key.

(** [self[ key ] = v] *)
Definition __setitem__ (key : ustr) (v : value) : M unit :=
  match _computed_key getitem !! key with
  | Some (_, Some setter) => setter v
  | _ => raise ValueError
  end.

(** [key in self] *)
Definition __contains__ (key : ustr) : M bool := λ s,
  Some (Ok (bool_decide (is_Some (_computed_key getitem !! key))
            || bool_decide (is_Some (_request s !! key))), s).

(** [self.get( key, default )] *)
Definition get (key : ustr) (default : value) : M value :=
  try_except (getitem key) (λ e, bool_decide (e = KeyError)) (mret default).
End methods.

(** ** Notions used to reason about the methods *)

(** [m2] returns whatever [m1] returns within its budget. *)
Definition le_M {A} (m1 m2 : M A) : Prop :=
  ∀ s r, m1 s = Some r → m2 s = Some r.

(** [m] never exhausts its budget. *)
Definition total {A} (m : M A) : Prop := ∀ s, is_Some (m s).

(** The budget that [self[ key ]] needs: the length of the longest chain
    of nested lookups that starts at [key]. *)
Definition rank (key : ustr) : nat :=
  if decide (key = u "query") then 5
  else if decide (key ∈ [u "start_codepoint"; u "start_column"]) then 4
  else if decide (key ∈ [u "first_filetype"; u "column_codepoint"]) then 3
  else if decide (key ∈ [u "filetypes"; u "line_bytes"]) then 2
  else 1.

(** The cache of a state replaced by [c]. *)
Definition with_cache (c : gmap ustr value) (s : RequestWrap) : RequestWrap :=
  {| _request := _request s; _cached_computed := c;
     getter_calls := getter_calls s |}.

(** The state after the ghost note that the getter of [key] is invoked. *)
Definition noted (key : ustr) (s : RequestWrap) : RequestWrap :=
  {| _request := _request s; _cached_computed := _cached_computed s;
     getter_calls := key :: getter_calls s |}.

(** The state after [self._cached_computed[ key ] = v]. *)
Definition stored (key : ustr) (v : value) (s : RequestWrap) : RequestWrap :=
  with_cache (<[key := v]> (_cached_computed s)) s.

(** The state after [self._cached_computed.pop( key, None )]. *)
Definition popped (key : ustr) (s : RequestWrap) : RequestWrap :=
  with_cache (delete key (_cached_computed s)) s.

(** What a lookup may do to the state: the request is left as it is, the
    cache keeps every entry it has and gains entries only at keys of rank
    at most [d], and the getter calls are added to the front. *)
Definition grows (d : nat) (s s' : RequestWrap) : Prop :=
  _request s' = _request s
  ∧ _cached_computed s ⊆ _cached_computed s'
  ∧ (∀ k, _cached_computed s !! k = None →
          is_Some (_cached_computed s' !! k) → (rank k ≤ d)%nat)
  ∧ getter_calls s `suffix_of` getter_calls s'.

Definition framed {A} (d : nat) (m : M A) : Prop :=
  ∀ s r s', m s = Some (r, s') → grows d s s'.

(** The filetypes that the request declares for its file:
    [request[ 'file_data' ][ request[ 'filepath' ] ][ 'filetypes' ]]. *)
Definition request_filetypes (request : gmap ustr value) : result value :=
  match request !! u "filepath" with
  | None => Raise KeyError
  | Some path =>
    match request !! u "file_data" with
    | None => Raise KeyError
    | Some file_data =>
      file_entry ← py_getitem file_data path;
      py_getitem file_entry (VStr (u "filetypes"))
    end
  end.

(** The substring of a text between two 0-based positions, in the words
    of the specification of [query]: the characters at the positions [p]
    with [lo ≤ p < hi], in order; empty when the range is empty or
    inverted.  [positions_between l p lo hi] is that selection from a
    suffix [l] of the text that starts at position [p]. *)
Fixpoint positions_between {A} (l : list A) (p lo hi : Z) : list A :=
  match l with
  | [] => []
  | x :: l' =>
    if (lo <=? p) && (p <? hi) then x :: positions_between l' (p + 1) lo hi
    else positions_between l' (p + 1) lo hi
  end.

Definition substring_between {A} (l : list A) (lo hi : Z) : list A :=
  positions_between l 0 lo hi.

(** The start-position algorithm in the words of its specification:
    convert the byte cursor to a codepoint offset, scan from the 0-based
    index one before it, add 1 to the 0-based result; and convert that
    codepoint offset back to a byte offset against the same line. *)
Section start_position_spec.
Context `{Collaborators}.

Definition spec_start_codepoint (line_value column_num filetype : value)
  : result value :=
  cursor ← ByteOffsetToCodepointOffset line_value column_num;
  index ← py_sub cursor (VInt 1);
  start ← StartOfLongestIdentifierEndingAtIndex line_value index filetype;
  py_add start (VInt 1).

Definition spec_start_column (line_value column_num filetype : value)
  : result value :=
  codepoint ← spec_start_codepoint line_value column_num filetype;
  CodepointOffsetToByteOffset line_value codepoint.
End start_position_spec.

(** ** A concrete set of collaborators

    The properties below hold for every instance of [Collaborators].  The
    instance defined here is the one at which they are evaluated on
    concrete requests. *)

Module Utils.

Definition byte_of (n : N) : Byte.byte := default Byte.x00 (Byte.of_N n).

(** Modelled from the spec: the UTF-8 encoder behind [ToBytes]
    (ycmd/utils.py is not part of the source at hand); one codepoint to
    its one to four bytes. *)
Definition utf8_encode1 (c : N) : list Byte.byte :=
  (if c <? 128 then [byte_of c]
   else if c <? 2048 then
     [byte_of (192 + c / 64); byte_of (128 + c mod 64)]
   else if c <? 65536 then
     [byte_of (224 + c / 4096); byte_of (128 + (c / 64) mod 64);
      byte_of (128 + c mod 64)]
   else
     [byte_of (240 + c / 262144); byte_of (128 + (c / 4096) mod 64);
      byte_of (128 + (c / 64) mod 64); byte_of (128 + c mod 64)])%N.

Definition utf8_encode (s : ustr) : list Byte.byte :=
  s ≫= utf8_encode1.

Definition is_continuation (b : Byte.byte) : bool :=
  ((128 <=? Byte.to_N b) && (Byte.to_N b <? 192))%N.

(** Modelled from the spec: the UTF-8 decoder behind [ToUnicode]
    (ycmd/utils.py is not part of the source at hand); [None] on a
    sequence that is cut inside a character or is otherwise malformed. *)
Fixpoint utf8_decode (b : list Byte.byte) : option ustr :=
  match b with
  | [] => Some []
  | b0 :: rest =>
    let n0 := Byte.to_N b0 in
    if (n0 <? 128)%N then cons n0 <$> utf8_decode rest
    else if (n0 <? 192)%N then None
    else if (n0 <? 224)%N then
      match rest with
      | b1 :: rest' =>
        if is_continuation b1 then
          cons ((n0 - 192) * 64 + (Byte.to_N b1 - 128))%N <$> utf8_decode rest'
        else None
      | _ => None
      end
    else if (n0 <? 240)%N then
      match rest with
      | b1 :: b2 :: rest' =>
        if is_continuation b1 && is_continuation b2 then
          cons ((n0 - 224) * 4096 + (Byte.to_N b1 - 128) * 64
                + (Byte.to_N b2 - 128))%N <$> utf8_decode rest'
        else None
      | _ => None
      end
    else
      match rest with
      | b1 :: b2 :: b3 :: rest' =>
        if is_continuation b1 && is_continuation b2 && is_continuation b3 then
          cons ((n0 - 240) * 262144 + (Byte.to_N b1 - 128) * 4096
                + (Byte.to_N b2 - 128) * 64 + (Byte.to_N b3 - 128))%N
            <$> utf8_decode rest'
        else None
      | _ => None
      end
  end.

(** Modelled from the spec: [ycmd.utils.ToBytes], UTF-8 encoding of a
    unicode string (§6); bytes pass through. *)
Definition to_bytes (v : value) : result value :=
  match v with
  | VStr s => Ok (VBytes (utf8_encode s))
  | VBytes b => Ok (VBytes b)
  | _ => Raise TypeError
  end.

(** Modelled from the spec: [ycmd.utils.ToUnicode], UTF-8 decoding of a
    byte string (§6); a unicode string passes through. *)
Definition to_unicode (v : value) : result value :=
  match v with
  | VStr s => Ok (VStr s)
  | VBytes b =>
    match utf8_decode b with
    | Some s => Ok (VStr s)
    | None => Raise UnicodeError
    end
  | _ => Raise TypeError
  end.

Definition py_len (v : value) : result value :=
  match v with
  | VStr s => Ok (VInt (Z.of_nat (length s)))
  | VBytes s => Ok (VInt (Z.of_nat (length s)))
  | VList s => Ok (VInt (Z.of_nat (length s)))
  | VDict d => Ok (VInt (Z.of_nat (size d)))
  | _ => Raise TypeError
  end.

(** Modelled from the spec: [ycmd.utils.ByteOffsetToCodepointOffset],
    1-based byte offset to 1-based codepoint offset (§6): one more than
    the number of codepoints encoded by the bytes before the offset. *)
Definition byte_offset_to_codepoint_offset (line_value byte_offset : value)
  : result value :=
  byte_line_value ← to_bytes line_value;
  hi ← py_sub byte_offset (VInt 1);
  prefix ← py_slice byte_line_value (VInt 0) hi;
  decoded ← to_unicode prefix;
  n ← py_len decoded;
  py_add n (VInt 1).

(** Modelled from the spec: [ycmd.utils.CodepointOffsetToByteOffset],
    the inverse conversion (§6): one more than the number of bytes that
    encode the codepoints before the offset. *)
Definition codepoint_offset_to_byte_offset
  (unicode_line_value codepoint_offset : value) : result value :=
  unicode_line_value ← to_unicode unicode_line_value;
  hi ← py_sub codepoint_offset (VInt 1);
  prefix ← py_slice unicode_line_value (VInt 0) hi;
  encoded ← to_bytes prefix;
  n ← py_len encoded;
  py_add n (VInt 1).

(** Modelled from the spec: [ycmd.utils.SplitLines], the ordered sequence
    of the lines of a text (§6); lines end at a line feed, and a text
    with k line feeds has k + 1 lines. *)
Fixpoint split_lf (s : ustr) : list ustr :=
  match s with
  | [] => [[]]
  | c :: s' =>
    if (c =? 10)%N then [] :: split_lf s'
    else
      match split_lf s' with
      | l :: ls => (c :: l) :: ls
      | [] => [[c]]
      end
  end.

Definition split_lines (v : value) : result value :=
  match v with
  | VStr s => Ok (VList (VStr <$> split_lf s))
  | _ => Raise TypeError
  end.

(** The default identifier policy: ASCII letters, digits, underscore,
    and every codepoint outside ASCII. *)
Definition is_identifier_char (c : N) : bool :=
  ((48 <=? c) && (c <=? 57) || (65 <=? c) && (c <=? 90) || (c =? 95)
   || (97 <=? c) && (c <=? 122) || (128 <=? c))%N.

(** The number of identifier characters at the head of a reversed prefix. *)
Fixpoint identifier_run (rev_prefix : ustr) : nat :=
  match rev_prefix with
  | c :: rest => if is_identifier_char c then S (identifier_run rest) else O
  | [] => O
  end.

(** Modelled from the spec:
    [ycmd.identifier_utils.StartOfLongestIdentifierEndingAtIndex], the
    0-based index where the longest identifier ending just before
    [index] begins, and [index] itself when there is none (§4.5, §6);
    the filetype does not change the default policy. *)
Definition start_of_longest_identifier (text index filetype : value)
  : result value :=
  match text, as_int index with
  | VStr s, Some i =>
    if (i <? 1) || (Z.of_nat (length s) <? i) then Ok (VInt i)
    else
      Ok (VInt (i - Z.of_nat (identifier_run (reverse (take (Z.to_nat i) s)))))
  | _, _ => Raise TypeError
  end.

(** Modelled from the spec: [ycmd.request_validation.EnsureRequestValid],
    the structural check of §3: the four required fields are present. *)
Definition ensure_request_valid (request : gmap ustr value) : result unit :=
  if forallb (λ k, bool_decide (is_Some (request !! k)))
       [u "line_num"; u "column_num"; u "filepath"; u "file_data"]
  then Ok ()
  else Raise ServerError.

Definition collaborators : Collaborators := {|
  ByteOffsetToCodepointOffset := byte_offset_to_codepoint_offset;
  CodepointOffsetToByteOffset := codepoint_offset_to_byte_offset;
  ToUnicode := to_unicode;
  ToBytes := to_bytes;
  SplitLines := split_lines;
  StartOfLongestIdentifierEndingAtIndex := start_of_longest_identifier;
  EnsureRequestValid := ensure_request_valid;
|}.

(** A request for the file [a.py] with the given contents and filetypes,
    the cursor at [line_num], [column_num]. *)
Definition request_for (contents : ustr) (filetypes : list value)
    (line_num column_num : Z) : gmap ustr value :=
  list_to_map [
    (u "filepath", VStr (u "a.py"));
    (u "line_num", VInt line_num);
    (u "column_num", VInt column_num);
    (u "file_data",
     VDict (list_to_map [
       (u "a.py",
        VDict (list_to_map [
          (u "contents", VStr contents);
          (u "filetypes", VList filetypes) ])) ]))
  ].

(** A freshly constructed view: empty cache, no getter called yet. *)
Definition fresh (request : gmap ustr value) : RequestWrap :=
  {| _request := request; _cached_computed := ∅; getter_calls := [] |}.

(** Two lines, [x = 1] and [foo.bar]. *)
Definition two_lines : ustr := u "x = 1" ++ [10%N] ++ u "foo.bar".

(** The cursor just past [foo.bar] on line 2. *)
Definition ascii_request : gmap ustr value :=
  request_for two_lines [VStr (u "python")] 2 8.

(** The line [ƒøø.∫å®], the cursor just past it; [∫] takes three bytes
    and the other letters two. *)
Definition multibyte_line : ustr := [402; 248; 248; 46; 8747; 229; 174]%N.

Definition multibyte_request : gmap ustr value :=
  request_for multibyte_line [] 1 15.

(** A request whose [file_data] has no entry for its [filepath]. *)
Definition orphan_request : gmap ustr value :=
  list_to_map [
    (u "filepath", VStr (u "a.py"));
    (u "line_num", VInt 1);
    (u "column_num", VInt 1);
    (u "file_data", VDict ∅)
  ].

(** The line [foo.bar], the cursor just past it. *)
Definition line_request : gmap ustr value :=
  request_for (u "foo.bar") [] 1 8.

(** The view of [line_request] after [set("start_codepoint", 0)]. *)
Definition start_at_zero : RequestWrap :=
  popped (u "query")
    (stored (u "start_column") (VInt 7)
       (stored (u "line_value") (VStr (u "foo.bar"))
          (noted (u "line_value")
             (stored (u "start_codepoint") (VInt 0)
                (fresh line_request))))).

(** The view of [multibyte_request] after [set("start_codepoint", 5)]. *)
Definition overridden : RequestWrap :=
  popped (u "query")
    (stored (u "start_column") (VInt 8)
       (stored (u "line_value") (VStr multibyte_line)
          (noted (u "line_value")
             (stored (u "start_codepoint") (VInt 5)
                (fresh multibyte_request))))).

End Utils.

(** ** The registry of derived fields *)

(** The keys of [_computed_key]. *)
Definition computed_names : list ustr :=
  [u "line_value"; u "start_codepoint"; u "column_codepoint"; u "line_bytes";
   u "start_column"; u "query"; u "filetypes"; u "first_filetype"].

(** ** The derived fields as functions of the request

    Each getter read as a function of the raw request alone: every
    [self[ key ]] of a getter is replaced by the function of that key. *)

(** [try: body except (...): handler] on results. *)
Definition result_try_except {A} (body : result A) (caught : exn → bool)
    (handler : result A) : result A :=
  match body with
  | Raise e => if caught e then handler else Raise e
  | r => r
  end.

Section pure_fields.
Context `{Collaborators}.
Variable request : gmap ustr value.

(** [request[ key ]] *)
Definition raw_field (key : ustr) : result value :=
  match request !! key with
  | Some v => Ok v
  | None => Raise KeyError
  end.

Definition pure_line_value : result value :=
  current_file ← raw_field (u "filepath");
  file_data ← raw_field (u "file_data");
  file_entry ← py_getitem file_data current_file;
  contents ← py_getitem file_entry (VStr (u "contents"));
  lines ← SplitLines contents;
  line_num ← raw_field (u "line_num");
  index ← py_sub line_num (VInt 1);
  py_getitem lines index.

Definition pure_filetypes : result value :=
  path ← raw_field (u "filepath");
  file_data ← raw_field (u "file_data");
  file_entry ← py_getitem file_data path;
  py_getitem file_entry (VStr (u "filetypes")).

Definition pure_first_filetype : result value :=
  result_try_except
    (filetypes ← pure_filetypes;
     py_getitem filetypes (VInt 0))
    (λ e, bool_decide (e = KeyError) || bool_decide (e = IndexError))
    (Ok VNone).

Definition pure_line_bytes : result value :=
  line_value ← pure_line_value;
  ToBytes line_value.

Definition pure_column_codepoint : result value :=
  line_bytes ← pure_line_bytes;
  column_num ← raw_field (u "column_num");
  ByteOffsetToCodepointOffset line_bytes column_num.

Definition pure_start_codepoint : result value :=
  line_value ← pure_line_value;
  column_num ← raw_field (u "column_num");
  first_filetype ← pure_first_filetype;
  CompletionStartCodepoint line_value column_num first_filetype.

Definition pure_start_column : result value :=
  line_value ← pure_line_value;
  column_num ← raw_field (u "column_num");
  first_filetype ← pure_first_filetype;
  CompletionStartColumn line_value column_num first_filetype.

Definition pure_query : result value :=
  line_value ← pure_line_value;
  start_codepoint ← pure_start_codepoint;
  lo ← py_sub start_codepoint (VInt 1);
  column_codepoint ← pure_column_codepoint;
  hi ← py_sub column_codepoint (VInt 1);
  py_slice line_value lo hi.

(** [self[ key ]] on a view that has cached nothing. *)
Definition pure_field (key : ustr) : result value :=
  if decide (key = u "line_value") then pure_line_value
  else if decide (key = u "start_codepoint") then pure_start_codepoint
  else if decide (key = u "column_codepoint") then pure_column_codepoint
  else if decide (key = u "line_bytes") then pure_line_bytes
  else if decide (key = u "start_column") then pure_start_column
  else if decide (key = u "query") then pure_query
  else if decide (key = u "filetypes") then pure_filetypes
  else if decide (key = u "first_filetype") then pure_first_filetype
  else raw_field key.
End pure_fields.

(** The derived fields that a setter writes or drops. *)
Definition overridable : list ustr :=
  [u "start_codepoint"; u "start_column"; u "query"].

(** The raw fields that the getters read. *)
Definition raw_reads : list ustr :=
  [u "filepath"; u "file_data"; u "line_num"; u "column_num"].

(** Whether a cached value of [key] is known to be the function of the
    request: always for the fields without setter and outside the grasp
    of one, and for the overridable ones as long as no setter has run
    ([pristine]). *)
Definition transparent (pristine : bool) (key : ustr) : bool :=
  pristine || bool_decide (key ∉ overridable).

(** Only keys of the registry are cached. *)
Definition registered_cache (s : RequestWrap) : Prop :=
  ∀ key, is_Some (_cached_computed s !! key) → key ∈ computed_names.

(** The state of a view of [request]: its request is [request], only
    registry keys are cached, and every transparent cached value is the
    function of the request. *)
Definition consistent `{Collaborators} (pristine : bool)
    (request : gmap ustr value) (s : RequestWrap) : Prop :=
  _request s = request
  ∧ registered_cache s
  ∧ ∀ key v, _cached_computed s !! key = Some v →
      transparent pristine key = true → pure_field request key = Ok v.

(** The method [m] keeps [P] and, under [cond], returns or raises what
    the pure computation [p] does. *)
Definition mirrors {A} (P : RequestWrap → Prop) (m : M A) (p : result A)
    (cond : Prop) : Prop :=
  ∀ s r s', P s → m s = Some (r, s') → P s' ∧ (cond → r = p).

(** ** Sequences of calls on a view *)

Inductive call : Type :=
  | CallGet (key : ustr)
  | CallGetOr (key : ustr) (default : value)
  | CallHas (key : ustr)
  | CallSet (key : ustr) (v : value).

(** A call that cannot run a setter. *)
Definition is_read (c : call) : bool :=
  match c with
  | CallSet _ _ => false
  | _ => true
  end.

Section calls.
Context `{Collaborators}.

(** The state after a call, whether it returned or raised. *)
Definition perform (c : call) (s : RequestWrap) : option RequestWrap :=
  match c with
  | CallGet key => snd <$> getitem key s
  | CallGetOr key default => snd <$> get key default s
  | CallHas key => snd <$> __contains__ key s
  | CallSet key v => snd <$> __setitem__ key v s
  end.

Fixpoint perform_all (calls : list call) (s : RequestWrap)
  : option RequestWrap :=
  match calls with
  | [] => Some s
  | c :: calls' => s' ← perform c s; perform_all calls' s'
  end.
End calls.

(** ** Concrete views and call sequences *)

Module Scenarios.

(** Reads, overrides, a fallback lookup, a containment check and a
    rejected write. *)
Definition mixed_calls : list call :=
  [CallGet (u "query");
   CallSet (u "start_codepoint") (VInt 5);
   CallGetOr (u "no_such_key") VNone;
   CallHas (u "filepath");
   CallSet (u "line_value") (VStr (u "x"));
   CallGet (u "start_column")].

Definition override_calls : list call :=
  [CallSet (u "start_codepoint") (VInt 5)].

Definition read_calls : list call := [CallGet (u "line_value")].

(** The view of [Utils.ascii_request] after [get("line_value")]. *)
Definition line_read : RequestWrap :=
  stored (u "line_value") (VStr (u "foo.bar"))
    (noted (u "line_value") (Utils.fresh Utils.ascii_request)).

(** [Utils.ascii_request] with a raw field named like a derived one. *)
Definition shadowed_request : gmap ustr value :=
  <[u "line_value" := VStr (u "raw")]> Utils.ascii_request.


(** The view of [Utils.orphan_request] after a failed
    [set("start_column", 3)]. *)
Definition failed_override : RequestWrap :=
  noted (u "line_value")
    (stored (u "start_column") (VInt 3) (Utils.fresh Utils.orphan_request)).

(** The view [Utils.overridden] after the getter of [query] has resolved
    [column_codepoint]. *)
Definition overridden_with_column : RequestWrap :=
  stored (u "column_codepoint") (VInt 8)
    (stored (u "line_bytes") (VBytes (Utils.utf8_encode Utils.multibyte_line))
       (noted (u "line_bytes")
          (noted (u "column_codepoint")
             (noted (u "query") Utils.overridden)))).

(** A request whose file declares [None] as its filetypes. *)
Definition null_filetypes_request : gmap ustr value :=
  list_to_map [
    (u "filepath", VStr (u "a.py"));
    (u "line_num", VInt 1);
    (u "column_num", VInt 1);
    (u "file_data",
     VDict (list_to_map [
       (u "a.py",
        VDict (list_to_map [
          (u "contents", VStr (u "x"));
          (u "filetypes", VNone) ])) ]))
  ].

(** A request for line 5 of a file of two lines. *)
Definition beyond_request : gmap ustr value :=
  Utils.request_for Utils.two_lines [] 5 1.

(** The view of [Utils.multibyte_request] after [get("query")]: the
    query [∫å®] and every field it is computed from are cached. *)
Definition queried : RequestWrap :=
  stored (u "query") (VStr [8747; 229; 174]%N)
  (stored (u "column_codepoint") (VInt 8)
  (stored (u "line_bytes") (VBytes (Utils.utf8_encode Utils.multibyte_line))
  (noted (u "line_bytes")
  (noted (u "column_codepoint")
  (stored (u "start_codepoint") (VInt 5)
  (stored (u "first_filetype") VNone
  (stored (u "filetypes") (VList [])
  (noted (u "filetypes")
  (noted (u "first_filetype")
  (noted (u "start_codepoint")
  (stored (u "line_value") (VStr Utils.multibyte_line)
  (noted (u "line_value")
  (noted (u "query")
  (Utils.fresh Utils.multibyte_request)))))))))))))).

(** The view [queried] after a failed [set("start_column", 2)]. *)
Definition stale_after_failed_override : RequestWrap :=
  stored (u "start_column") (VInt 2) queried.

End Scenarios.

(** Splits a membership [key ∈ computed_names] into its eight cases. *)
Ltac computed_cases Hin :=
  unfold computed_names in Hin;
  repeat (apply elem_of_cons in Hin as [-> | Hin]);
  [.. | by apply elem_of_nil in Hin].

Section registry.
Context `{Collaborators}.
Variable self : ustr → M value.

Lemma computed_key_line_value :
  _computed_key self !! u "line_value" = Some (_CurrentLine, None).
Proof. reflexivity. Qed.

Lemma computed_key_start_codepoint :
  _computed_key self !! u "start_codepoint"
  = Some (_GetCompletionStartCodepoint self,
          Some (_SetCompletionStartCodepoint self)).
Proof. reflexivity. Qed.

Lemma computed_key_column_codepoint :
  _computed_key self !! u "column_codepoint"
  = Some (column_codepoint_getter self, None).
Proof. reflexivity. Qed.

Lemma computed_key_line_bytes :
  _computed_key self !! u "line_bytes" = Some (line_bytes_getter self, None).
Proof. reflexivity. Qed.

Lemma computed_key_start_column :
  _computed_key self !! u "start_column"
  = Some (_GetCompletionStartColumn self,
          Some (_SetCompletionStartColumn self)).
Proof. reflexivity. Qed.

Lemma computed_key_query :
  _computed_key self !! u "query" = Some (_Query self, None).
Proof. reflexivity. Qed.

Lemma computed_key_filetypes :
  _computed_key self !! u "filetypes" = Some (_Filetypes self, None).
Proof. reflexivity. Qed.

Lemma computed_key_first_filetype :
  _computed_key self !! u "first_filetype" = Some (_FirstFiletype self, None).
Proof. reflexivity. Qed.

Lemma computed_key_other (key : ustr) :
  key ∉ computed_names → _computed_key self !! key = None.
Proof. intros Hkey. by apply not_elem_of_list_to_map_1. Qed.

Lemma computed_key_is_Some (key : ustr) :
  is_Some (_computed_key self !! key) ↔ key ∈ computed_names.
Proof.
  split.
  - intros Hsome. destruct (decide (key ∈ computed_names)) as [|Hno]; [done|].
    rewrite (computed_key_other _ Hno) in Hsome. by destruct Hsome.
  - intros Hin. computed_cases Hin; by eexists.
Qed.
End registry.

(** Rewrites the lookups of the registry at its eight keys. *)
Ltac registry :=
  rewrite ?computed_key_line_value, ?computed_key_start_codepoint,
    ?computed_key_column_codepoint, ?computed_key_line_bytes,
    ?computed_key_start_column, ?computed_key_query, ?computed_key_filetypes,
    ?computed_key_first_filetype.

(** Two distinct key literals are different. *)
Ltac key_ne :=
  let E := fresh "E" in intros E; vm_compute in E; discriminate E.

(** A key literal outside the registry is not one of its keys. *)
Ltac not_computed := apply (bool_decide_unpack _); vm_compute; exact I.

(** A key literal of the registry is one of its keys. *)
Ltac is_computed := apply (bool_decide_unpack _); vm_compute; exact I.

(** ** The monad of methods *)

Section monad.
Context {A B : Type}.
Implicit Types (m : M A) (f : A → M B).

Lemma bind_unfold m f s :
  (m ≫= f) s = match m s with
               | Some (Ok a, s') => f a s'
               | Some (Raise e, s') => Some (Raise e, s')
               | None => None
               end.
Proof. reflexivity. Qed.

Lemma bind_Ok m f s a s' : m s = Some (Ok a, s') → (m ≫= f) s = f a s'.
Proof. intros Hm. by rewrite bind_unfold, Hm. Qed.

Lemma bind_Raise m f s e s' :
  m s = Some (Raise e, s') → (m ≫= f) s = Some (Raise e, s').
Proof. intros Hm. by rewrite bind_unfold, Hm. Qed.

Lemma bind_ext m1 m2 f1 f2 :
  (∀ s, m1 s = m2 s) → (∀ a s, f1 a s = f2 a s) →
  ∀ s, (m1 ≫= f1) s = (m2 ≫= f2) s.
Proof.
  intros Hm Hf s. rewrite !bind_unfold, Hm.
  destruct (m2 s) as [[[a|e] s']|]; auto.
Qed.

Lemma try_except_ext (b1 b2 h : M A) caught :
  (∀ s, b1 s = b2 s) →
  ∀ s, try_except b1 caught h s = try_except b2 caught h s.
Proof. intros Hb s. unfold try_except. by rewrite Hb. Qed.

Lemma le_M_refl m : le_M m m.
Proof. by intros s r. Qed.

Lemma le_M_bind m1 m2 f1 f2 :
  le_M m1 m2 → (∀ a, le_M (f1 a) (f2 a)) → le_M (m1 ≫= f1) (m2 ≫= f2).
Proof.
  intros Hm Hf s r. rewrite !bind_unfold.
  destruct (m1 s) as [[[a|e] s']|] eqn:E1; [| |done];
    rewrite (Hm _ _ E1); [apply Hf | done].
Qed.

Lemma le_M_try (b1 b2 h1 h2 : M A) caught :
  le_M b1 b2 → le_M h1 h2 →
  le_M (try_except b1 caught h1) (try_except b2 caught h2).
Proof.
  intros Hb Hh s r. unfold try_except.
  destruct (b1 s) as [[[a|e] s']|] eqn:E1; [| |done];
    rewrite (Hb _ _ E1); [done|].
  destruct (caught e); [apply Hh | done].
Qed.

Lemma le_M_total_eq m1 m2 : le_M m1 m2 → total m1 → ∀ s, m2 s = m1 s.
Proof. intros Hle Ht s. destruct (Ht s) as [r Hr]. by rewrite (Hle _ _ Hr). Qed.

Lemma total_bind m f : total m → (∀ a, total (f a)) → total (m ≫= f).
Proof.
  intros Hm Hf s. rewrite bind_unfold.
  destruct (Hm s) as [[[a|e] s'] ->]; [apply Hf | by eexists].
Qed.

Lemma total_try (b h : M A) caught :
  total b → total h → total (try_except b caught h).
Proof.
  intros Hb Hh s. unfold try_except.
  destruct (Hb s) as [[[a|e] s'] ->]; [by eexists|].
  destruct (caught e); [apply Hh | by eexists].
Qed.

Lemma total_ret (a : A) : total (mret a : M A).
Proof. intros s. by eexists. Qed.

Lemma total_lift (r : result A) : total (lift r).
Proof. intros s. by eexists. Qed.

Lemma total_raise e : total (raise e : M A).
Proof. intros s. by eexists. Qed.
End monad.

Lemma total_request_lookup key : total (request_lookup key).
Proof. intros s. unfold request_lookup. destruct (_ !! _); by eexists. Qed.

Lemma total_cache_store key v : total (cache_store key v).
Proof. intros s. by eexists. Qed.

Lemma total_cache_pop key : total (cache_pop key).
Proof. intros s. by eexists. Qed.

Lemma total_note_getter_call key : total (note_getter_call key).
Proof. intros s. by eexists. Qed.

(** Proves [le_M] between two runs of one method body that differ in the
    lookup they call. *)
Ltac mono Hself :=
  repeat first
    [ apply le_M_refl
    | apply Hself
    | apply le_M_try
    | apply le_M_bind; [| intros ?] ].

(** Proves that a method body is total from the totality of its calls. *)
Ltac tot :=
  repeat first
    [ assumption
    | apply total_ret
    | apply total_lift
    | apply total_raise
    | apply total_request_lookup
    | apply total_cache_store
    | apply total_cache_pop
    | apply total_note_getter_call
    | apply total_try
    | apply total_bind; [| intros ?] ].

(** Proves that two runs of one method body agree from the agreement of
    the lookups they call. *)
Ltac ext Hself :=
  repeat first
    [ reflexivity
    | apply Hself; key_ne
    | apply try_except_ext; intros ?
    | apply bind_ext; [intros ? | intros ? ?] ].

(** ** The budget of [__getitem__] is never exhausted *)

Section budget.
Context `{Collaborators}.

Lemma getitem_S n key s :
  __getitem__ (S n) key s =
  match _cached_computed s !! key with
  | Some v => Some (Ok v, s)
  | None =>
    match _computed_key (__getitem__ n) !! key with
    | Some (getter, _) => compute_and_cache key getter s
    | None => request_lookup key s
    end
  end.
Proof. reflexivity. Qed.

Section two_lookups.
Variables self1 self2 : ustr → M value.

(** A larger budget for the nested lookups changes no result. *)
Lemma computed_key_mono key :
  (∀ k, le_M (self1 k) (self2 k)) →
  match _computed_key self1 !! key, _computed_key self2 !! key with
  | Some (g1, _), Some (g2, _) => le_M g1 g2
  | None, None => True
  | _, _ => False
  end.
Proof.
  intros Hself. destruct (decide (key ∈ computed_names)) as [Hin|Hno].
  - computed_cases Hin; registry;
      unfold _GetCompletionStartCodepoint, column_codepoint_getter,
        line_bytes_getter, _GetCompletionStartColumn, _Query, _Filetypes,
        _FirstFiletype; mono Hself.
  - by rewrite !computed_key_other.
Qed.

(** The getters read [self] at keys other than [query] only. *)
Lemma computed_key_ext key :
  (∀ k, k ≠ u "query" → ∀ s, self1 k s = self2 k s) →
  match _computed_key self1 !! key, _computed_key self2 !! key with
  | Some (g1, _), Some (g2, _) => ∀ s, g1 s = g2 s
  | None, None => True
  | _, _ => False
  end.
Proof.
  intros Hself. destruct (decide (key ∈ computed_names)) as [Hin|Hno].
  - computed_cases Hin; registry;
      unfold _GetCompletionStartCodepoint, column_codepoint_getter,
        line_bytes_getter, _GetCompletionStartColumn, _Query, _Filetypes,
        _FirstFiletype; intros s; ext Hself.
  - by rewrite !computed_key_other.
Qed.
End two_lookups.

Lemma compute_and_cache_mono key (g1 g2 : M value) :
  le_M g1 g2 → le_M (compute_and_cache key g1) (compute_and_cache key g2).
Proof. intros Hg. unfold compute_and_cache. mono Hg. Qed.

Lemma compute_and_cache_ext key (g1 g2 : M value) :
  (∀ s, g1 s = g2 s) →
  ∀ s, compute_and_cache key g1 s = compute_and_cache key g2 s.
Proof.
  intros Hg. unfold compute_and_cache.
  apply bind_ext; [done|]. intros _. apply bind_ext; [done|]. done.
Qed.

Lemma getitem_mono_S n key : le_M (__getitem__ n key) (__getitem__ (S n) key).
Proof.
  revert key. induction n as [|n IH]; intros key s r; [done|].
  rewrite !getitem_S. destruct (_cached_computed s !! key); [done|].
  pose proof (computed_key_mono (__getitem__ n) (__getitem__ (S n)) key IH)
    as Hreg.
  destruct (_computed_key (__getitem__ n) !! key) as [[g1 ?]|],
    (_computed_key (__getitem__ (S n)) !! key) as [[g2 ?]|]; try done.
  by apply compute_and_cache_mono.
Qed.

Lemma getitem_mono n m key :
  (n ≤ m)%nat → le_M (__getitem__ n key) (__getitem__ m key).
Proof.
  induction 1 as [|m _ IH]; [apply le_M_refl|].
  intros s r Hr. by apply getitem_mono_S, IH.
Qed.

Lemma total_getitem_S n key :
  (∀ g st, _computed_key (__getitem__ n) !! key = Some (g, st) → total g) →
  total (__getitem__ (S n) key).
Proof.
  intros Hg s. rewrite getitem_S.
  destruct (_cached_computed s !! key); [by eexists|].
  destruct (_computed_key (__getitem__ n) !! key) as [[g st]|] eqn:Hreg.
  - unfold compute_and_cache. specialize (Hg g st eq_refl). revert s. tot.
  - apply total_request_lookup.
Qed.

(** Proves the totality of [self[ key ]] at a derived key from the
    totality of the nested lookups, which are in the context. *)
Ltac total_key :=
  let n := fresh "n" in
  intros [|n] ?; [lia|];
  apply total_getitem_S; registry; intros ? ? [= <- <-];
  unfold _CurrentLine, _GetCompletionStartCodepoint, column_codepoint_getter,
    line_bytes_getter, _GetCompletionStartColumn, _Query, _Filetypes,
    _FirstFiletype;
  tot.

Lemma total_raw key n :
  key ∉ computed_names → (1 ≤ n)%nat → total (__getitem__ n key).
Proof.
  intros Hno. destruct n as [|n]; [lia|]. intros _.
  apply total_getitem_S. intros g st. by rewrite computed_key_other.
Qed.

Lemma total_line_value n :
  (1 ≤ n)%nat → total (__getitem__ n (u "line_value")).
Proof. revert n. total_key. Qed.

Lemma total_filetypes n :
  (2 ≤ n)%nat → total (__getitem__ n (u "filetypes")).
Proof.
  revert n. total_key; apply total_raw; try lia; not_computed.
Qed.

Lemma total_line_bytes n :
  (2 ≤ n)%nat → total (__getitem__ n (u "line_bytes")).
Proof. revert n. total_key. apply total_line_value. lia. Qed.

Lemma total_first_filetype n :
  (3 ≤ n)%nat → total (__getitem__ n (u "first_filetype")).
Proof. revert n. total_key. apply total_filetypes. lia. Qed.

Lemma total_column_num n :
  (1 ≤ n)%nat → total (__getitem__ n (u "column_num")).
Proof.
  apply total_raw. not_computed.
Qed.

Lemma total_column_codepoint n :
  (3 ≤ n)%nat → total (__getitem__ n (u "column_codepoint")).
Proof.
  revert n. total_key; [apply total_line_bytes | apply total_column_num]; lia.
Qed.

Lemma total_start_codepoint n :
  (4 ≤ n)%nat → total (__getitem__ n (u "start_codepoint")).
Proof.
  revert n. total_key;
    [apply total_line_value | apply total_column_num
    | apply total_first_filetype]; lia.
Qed.

Lemma total_start_column n :
  (4 ≤ n)%nat → total (__getitem__ n (u "start_column")).
Proof.
  revert n. total_key;
    [apply total_line_value | apply total_column_num
    | apply total_first_filetype]; lia.
Qed.

Lemma total_query n :
  (5 ≤ n)%nat → total (__getitem__ n (u "query")).
Proof.
  revert n. total_key;
    [apply total_line_value | apply total_start_codepoint
    | apply total_column_codepoint]; lia.
Qed.

Lemma rank_le_depth key : (1 ≤ rank key ≤ depth)%nat.
Proof. unfold rank, depth. repeat case_decide; lia. Qed.

Lemma rank_not_query key : key ≠ u "query" → (rank key ≤ 4)%nat.
Proof. intros Hne. unfold rank. repeat case_decide; done || lia. Qed.

(** From its rank on, the budget of a key suffices. *)
Lemma total_from_rank key n :
  (rank key ≤ n)%nat → total (__getitem__ n key).
Proof.
  destruct (decide (key ∈ computed_names)) as [Hin|Hno].
  - computed_cases Hin; vm_compute rank;
      eauto using total_line_value, total_start_codepoint,
        total_column_codepoint, total_line_bytes, total_start_column,
        total_query, total_filetypes, total_first_filetype.
  - intros Hn. apply total_raw; [done|]. pose proof (rank_le_depth key). lia.
Qed.

(** [self[ key ]] always returns or raises. *)
Lemma getitem_total key : total (getitem key).
Proof. apply total_from_rank, rank_le_depth. Qed.

(** A budget of at least the rank of the key gives the result of
    [self[ key ]]. *)
Lemma getitem_budget n key s :
  (rank key ≤ n)%nat → __getitem__ n key s = getitem key s.
Proof.
  intros Hn. unfold getitem.
  pose proof (rank_le_depth key) as [_ Hd].
  rewrite (le_M_total_eq _ _ (getitem_mono _ _ key Hn)
             (total_from_rank key _ (le_n _)) s).
  by rewrite (le_M_total_eq _ _ (getitem_mono _ _ key Hd)
                (total_from_rank key _ (le_n _)) s).
Qed.

(** [self[ key ]] satisfies the equation of the source, with itself as
    the lookup that the getters call. *)
Lemma getitem_eq key s :
  getitem key s =
  match _cached_computed s !! key with
  | Some v => Some (Ok v, s)
  | None =>
    match _computed_key getitem !! key with
    | Some (getter, _) => compute_and_cache key getter s
    | None => request_lookup key s
    end
  end.
Proof.
  unfold getitem at 1, depth. rewrite getitem_S.
  destruct (_cached_computed s !! key); [done|].
  pose proof (computed_key_ext (__getitem__ 4) getitem key) as Hreg.
  destruct (_computed_key (__getitem__ 4) !! key) as [[g1 ?]|],
    (_computed_key getitem !! key) as [[g2 ?]|]; try done.
  - apply compute_and_cache_ext, Hreg.
    intros k Hk s'. by apply getitem_budget, rank_not_query.
  - exfalso. apply Hreg. intros k Hk s'. by apply getitem_budget, rank_not_query.
  - exfalso. apply Hreg. intros k Hk s'. by apply getitem_budget, rank_not_query.
Qed.
End budget.

(** ** What a lookup does to the state *)

Section frame.
Context `{Collaborators}.

Lemma grows_refl d s : grows d s s.
Proof.
  repeat split; [done| |done].
  intros k Hk [v Hv]. congruence.
Qed.

Lemma grows_trans d s1 s2 s3 : grows d s1 s2 → grows d s2 s3 → grows d s1 s3.
Proof.
  intros (Hr1 & Hc1 & Hn1 & Hg1) (Hr2 & Hc2 & Hn2 & Hg2).
  repeat split; [congruence | by etrans | | by etrans].
  intros k Hk Hk3. destruct (_cached_computed s2 !! k) eqn:Hk2; eauto.
Qed.

Lemma grows_weaken d d' s s' : (d ≤ d')%nat → grows d s s' → grows d' s s'.
Proof.
  intros Hd (Hr & Hc & Hn & Hg). repeat split; [done..| |done].
  intros k Hk Hk'. specialize (Hn k Hk Hk'). lia.
Qed.

Lemma grows_noted d key s : grows d s (noted key s).
Proof.
  repeat split; [done| |by apply suffix_cons_r].
  intros k Hk [v Hv]. simpl in Hv. congruence.
Qed.

Lemma framed_weaken {A} d d' (m : M A) :
  (d ≤ d')%nat → framed d m → framed d' m.
Proof. intros Hd Hm s r s' Hrun. eapply grows_weaken, Hm; done. Qed.

Lemma framed_bind {A B} d (m : M A) (f : A → M B) :
  framed d m → (∀ a, framed d (f a)) → framed d (m ≫= f).
Proof.
  intros Hm Hf s r s'. rewrite bind_unfold.
  destruct (m s) as [[[a|e] s1]|] eqn:E; [| |done].
  - intros Hrun. eapply grows_trans; [by eapply Hm | by eapply Hf].
  - intros [= <- <-]. by eapply Hm.
Qed.

Lemma framed_try {A} d (b h : M A) caught :
  framed d b → framed d h → framed d (try_except b caught h).
Proof.
  intros Hb Hh s r s'. unfold try_except.
  destruct (b s) as [[[a|e] s1]|] eqn:E; [| |done].
  - intros [= <- <-]. by eapply Hb.
  - destruct (caught e).
    + intros Hrun. eapply grows_trans; [by eapply Hb | by eapply Hh].
    + intros [= <- <-]. by eapply Hb.
Qed.

Lemma framed_ret {A} d (a : A) : framed d (mret a : M A).
Proof. intros s r s' [= <- <-]. apply grows_refl. Qed.

Lemma framed_lift {A} d (r : result A) : framed d (lift r).
Proof. intros s r' s' [= <- <-]. apply grows_refl. Qed.

Lemma framed_request_lookup d key : framed d (request_lookup key).
Proof.
  intros s r s'. unfold request_lookup.
  destruct (_ !! _); intros [= <- <-]; apply grows_refl.
Qed.

(** Running a getter that leaves [key] out of the cache, and caching its
    result under [key]. *)
Lemma compute_and_cache_grows d key (g : M value) s r s' :
  (d < rank key)%nat → framed d g → _cached_computed s !! key = None →
  compute_and_cache key g s = Some (r, s') → grows (rank key) s s'.
Proof.
  intros Hd Hg Hkey. unfold compute_and_cache.
  rewrite bind_unfold. simpl. change (_ ≫= _) with
    (v ← g; _ ← cache_store key v; (mret v : M value)).
  rewrite bind_unfold.
  destruct (g _) as [[[v|e] s1]|] eqn:E; [| |done].
  - intros [= <- <-]. apply Hg in E as (Hr & Hc & Hn & Hl).
    assert (_cached_computed s1 !! key = None) as Hkey1.
    { destruct (_cached_computed s1 !! key) eqn:Hk1; [|done].
      specialize (Hn key Hkey (mk_is_Some _ _ Hk1)). lia. }
    repeat split; simpl.
    + done.
    + etrans; [exact Hc|]. by apply insert_subseteq.
    + intros k Hk. destruct (decide (k = key)) as [->|Hne]; [lia|].
      rewrite lookup_insert_ne by done. intros Hk1.
      specialize (Hn k Hk Hk1). lia.
    + etrans; [|exact Hl]. by apply suffix_cons_r.
  - intros [= <- <-]. eapply grows_weaken, grows_trans;
      [| apply (grows_noted d key) | by eapply Hg]. lia.
Qed.

(** Proves that a getter body is [framed]; [nested] proves it of the
    nested lookups, each at its rank. *)
Ltac frm nested :=
  repeat first
    [ apply framed_ret
    | apply framed_lift
    | apply framed_request_lookup
    | apply framed_try
    | apply framed_bind; [| intros ?]
    | match goal with
      | |- framed _ (getitem ?k) =>
        apply (framed_weaken (rank k)); [vm_compute; lia|]; nested k
      end ].

Lemma getitem_framed_rank key : framed (rank key) (getitem key).
Proof.
  remember (rank key) as d eqn:Hd. revert key Hd.
  induction d as [d IH] using lt_wf_ind. intros key -> s r s'.
  rewrite getitem_eq.
  destruct (_cached_computed s !! key) eqn:Hkey.
  { intros [= <- <-]. apply grows_refl. }
  destruct (decide (key ∈ computed_names)) as [Hin|Hno].
  - computed_cases Hin; registry;
      (match goal with
       | |- compute_and_cache ?k _ _ = _ → _ =>
         apply (compute_and_cache_grows (pred (rank k)))
       end; [vm_compute; lia | | exact Hkey]);
      unfold _CurrentLine, _GetCompletionStartCodepoint,
        column_codepoint_getter, line_bytes_getter,
        _GetCompletionStartColumn, _Query, _Filetypes, _FirstFiletype;
      frm ltac:(fun k => apply (IH (rank k)); [vm_compute; lia | reflexivity]).
  - rewrite computed_key_other by done. apply framed_request_lookup.
Qed.


(** A lookup leaves the request as it is, only adds entries to the cache
    and only adds getter calls. *)
Lemma getitem_grows key s r s' :
  getitem key s = Some (r, s') →
  _request s' = _request s
  ∧ _cached_computed s ⊆ _cached_computed s'
  ∧ getter_calls s `suffix_of` getter_calls s'.
Proof.
  intros Hrun. apply getitem_framed_rank in Hrun as (Hr & Hc & _ & Hl). done.
Qed.
End frame.

(** ** Lookups, case by case *)

Section lookups.
Context `{Collaborators}.

Lemma getitem_cached key s v :
  _cached_computed s !! key = Some v → getitem key s = Some (Ok v, s).
Proof. intros Hkey. by rewrite getitem_eq, Hkey. Qed.

Lemma getitem_raw key s :
  _cached_computed s !! key = None → key ∉ computed_names →
  getitem key s = request_lookup key s.
Proof. intros Hkey Hno. by rewrite getitem_eq, Hkey, computed_key_other. Qed.

Lemma getitem_derived key s getter setter :
  _cached_computed s !! key = None →
  _computed_key getitem !! key = Some (getter, setter) →
  getitem key s = compute_and_cache key getter s.
Proof. intros Hkey Hreg. by rewrite getitem_eq, Hkey, Hreg. Qed.

Lemma compute_and_cache_unfold key (g : M value) s :
  compute_and_cache key g s =
  match g (noted key s) with
  | Some (Ok v, s1) => Some (Ok v, stored key v s1)
  | Some (Raise e, s1) => Some (Raise e, s1)
  | None => None
  end.
Proof.
  unfold compute_and_cache. rewrite bind_unfold. simpl.
  change (_ ≫= _) with (v ← g; _ ← cache_store key v; (mret v : M value)).
  rewrite bind_unfold. by destruct (g _) as [[[v|e] s1]|].
Qed.

(** A successful lookup of a derived field leaves its result in the
    cache. *)
Lemma getitem_Ok_cached key s v s1 :
  key ∈ computed_names → getitem key s = Some (Ok v, s1) →
  _cached_computed s1 !! key = Some v.
Proof.
  intros Hin. rewrite getitem_eq.
  destruct (_cached_computed s !! key) eqn:Hkey; [by intros [= <- <-]|].
  apply (computed_key_is_Some getitem) in Hin as [[g st] Hreg].
  rewrite Hreg, compute_and_cache_unfold.
  destruct (g _) as [[[v'|e] s']|]; [|done..].
  intros [= <- <-]. apply lookup_insert_eq.
Qed.
End lookups.

(** ** The current line *)

Section current_line.
Context `{Collaborators}.

(** The request of [s] names a file whose contents split into [lines],
    and asks for line [n]. *)
Lemma current_line_run s path file_data file_entry contents lines n :
  _request s !! u "filepath" = Some (VStr path) →
  _request s !! u "file_data" = Some (VDict file_data) →
  file_data !! path = Some (VDict file_entry) →
  file_entry !! u "contents" = Some contents →
  SplitLines contents = Ok (VList lines) →
  _request s !! u "line_num" = Some (VInt n) →
  _CurrentLine s = Some (seq_index lines (n - 1), s).
Proof.
  intros Hpath Hdata Hentry Hcontents Hsplit Hnum.
  unfold _CurrentLine, request_lookup, lift, mbind, M_bind.
  rewrite Hpath, Hdata. cbn. rewrite Hentry. cbn.
  rewrite Hcontents, Hsplit. cbn. by rewrite Hnum.
Qed.

Lemma line_value_run s path file_data file_entry contents lines n :
  _request s !! u "filepath" = Some (VStr path) →
  _request s !! u "file_data" = Some (VDict file_data) →
  file_data !! path = Some (VDict file_entry) →
  file_entry !! u "contents" = Some contents →
  SplitLines contents = Ok (VList lines) →
  _request s !! u "line_num" = Some (VInt n) →
  _cached_computed s !! u "line_value" = None →
  getitem (u "line_value") s =
  match seq_index lines (n - 1) with
  | Ok line =>
    Some (Ok line, stored (u "line_value") line (noted (u "line_value") s))
  | Raise e => Some (Raise e, noted (u "line_value") s)
  end.
Proof.
  intros Hpath Hdata Hentry Hcontents Hsplit Hnum Hkey.
  rewrite (getitem_derived _ _ _ _ Hkey (computed_key_line_value _)).
  rewrite compute_and_cache_unfold.
  rewrite (current_line_run (noted _ s) _ _ _ _ _ _
             Hpath Hdata Hentry Hcontents Hsplit Hnum).
  by destruct (seq_index _ _).
Qed.
End current_line.

(** ** Indexing a sequence *)

Section seq_index.
Context {A : Type}.
Implicit Types (l : list A) (i : Z).

Lemma seq_index_in_range l i :
  0 ≤ i < Z.of_nat (length l) →
  ∃ x, l !! Z.to_nat i = Some x ∧ seq_index l i = Ok x.
Proof.
  intros Hi. unfold seq_index.
  destruct (Z.ltb_spec i 0) as [|_]; [lia|].
  destruct (Z.leb_spec 0 i); [|lia].
  destruct (Z.ltb_spec i (Z.of_nat (length l))); [|lia]. simpl.
  destruct (lookup_lt_is_Some_2 l (Z.to_nat i)) as [x Hx]; [lia|].
  exists x. by rewrite Hx.
Qed.

Lemma seq_index_too_large l i :
  Z.of_nat (length l) ≤ i → seq_index l i = Raise IndexError.
Proof.
  intros Hi. unfold seq_index.
  destruct (Z.ltb_spec i 0) as [|_]; [lia|].
  destruct (Z.ltb_spec i (Z.of_nat (length l))); [lia|].
  by rewrite andb_false_r.
Qed.

Lemma seq_index_negative l i :
  - Z.of_nat (length l) ≤ i < 0 →
  ∃ x, l !! Z.to_nat (Z.of_nat (length l) + i) = Some x
       ∧ seq_index l i = Ok x.
Proof.
  intros Hi. unfold seq_index.
  destruct (Z.ltb_spec i 0) as [_|]; [|lia].
  destruct (Z.leb_spec 0 (i + Z.of_nat (length l))); [|lia].
  destruct (Z.ltb_spec (i + Z.of_nat (length l)) (Z.of_nat (length l))); [|lia].
  simpl. replace (Z.of_nat (length l) + i) with (i + Z.of_nat (length l)) by lia.
  destruct (lookup_lt_is_Some_2 l (Z.to_nat (i + Z.of_nat (length l))))
    as [x Hx]; [lia|].
  exists x. by rewrite Hx.
Qed.

Lemma seq_index_too_small l i :
  i < - Z.of_nat (length l) → seq_index l i = Raise IndexError.
Proof.
  intros Hi. unfold seq_index.
  destruct (Z.ltb_spec i 0) as [_|]; [|lia].
  by destruct (Z.leb_spec 0 (i + Z.of_nat (length l))); [lia|].
Qed.
End seq_index.

(** ** The properties of the view *)

Section current_line_properties.
Context `{Collaborators}.

(** C6: [get("line_value")] returns the element at index [line_num - 1]
    of [SplitLines] applied to the contents recorded for [filepath] in
    [file_data]; it is the line numbered [line_num] when
    [1 ≤ line_num ≤] the number of lines, and the lookup fails with
    [IndexError] (the spec's LineOutOfRange) whenever [line_num] exceeds
    the number of lines. *)
Theorem line_value_is_indexed_line
    s path file_data file_entry contents lines n :
  _request s !! u "filepath" = Some (VStr path) →
  _request s !! u "file_data" = Some (VDict file_data) →
  file_data !! path = Some (VDict file_entry) →
  file_entry !! u "contents" = Some contents →
  SplitLines contents = Ok (VList lines) →
  _request s !! u "line_num" = Some (VInt n) →
  _cached_computed s !! u "line_value" = None →
  fst <$> getitem (u "line_value") s = Some (seq_index lines (n - 1))
  ∧ (1 ≤ n ≤ Z.of_nat (length lines) →
     ∃ line, lines !! Z.to_nat (n - 1) = Some line
       ∧ getitem (u "line_value") s
         = Some (Ok line,
                 stored (u "line_value") line (noted (u "line_value") s)))
  ∧ (Z.of_nat (length lines) < n →
     getitem (u "line_value") s
     = Some (Raise IndexError, noted (u "line_value") s)).
Proof.
  intros Hpath Hdata Hentry Hcontents Hsplit Hnum Hkey.
  rewrite (line_value_run _ _ _ _ _ _ _
             Hpath Hdata Hentry Hcontents Hsplit Hnum Hkey).
  split; [by destruct (seq_index _ _)|]. split.
  - intros Hn. destruct (seq_index_in_range lines (n - 1)) as (line & Hl & ->);
      [lia|]. by exists line.
  - intros Hn. by rewrite seq_index_too_large by lia.
Qed.

(** C10: when [line_num] is 0, or negative with [line_num - 1] still a
    valid negative index, [get("line_value")] does not fail: it returns
    the line counted from the end of the file, and the last line when
    [line_num] is 0. *)
Theorem line_value_counts_from_end
    s path file_data file_entry contents lines n :
  _request s !! u "filepath" = Some (VStr path) →
  _request s !! u "file_data" = Some (VDict file_data) →
  file_data !! path = Some (VDict file_entry) →
  file_entry !! u "contents" = Some contents →
  SplitLines contents = Ok (VList lines) →
  _request s !! u "line_num" = Some (VInt n) →
  _cached_computed s !! u "line_value" = None →
  n ≤ 0 → - Z.of_nat (length lines) ≤ n - 1 →
  ∃ line,
    lines !! Z.to_nat (Z.of_nat (length lines) + (n - 1)) = Some line
    ∧ getitem (u "line_value") s
      = Some (Ok line,
              stored (u "line_value") line (noted (u "line_value") s))
    ∧ (n = 0 → last lines = Some line).
Proof.
  intros Hpath Hdata Hentry Hcontents Hsplit Hnum Hkey Hn Hlen.
  rewrite (line_value_run _ _ _ _ _ _ _
             Hpath Hdata Hentry Hcontents Hsplit Hnum Hkey).
  destruct (seq_index_negative lines (n - 1)) as (line & Hl & ->); [lia|].
  exists line. repeat split; [done|]. intros ->.
  rewrite last_lookup. rewrite <- Hl. f_equal. lia.
Qed.
End current_line_properties.

(** Line 2 of the two lines [x = 1] and [foo.bar]. *)
Lemma line_value_is_indexed_line_witness :
  getitem (H := Utils.collaborators) (u "line_value")
    (Utils.fresh Utils.ascii_request)
  = Some (Ok (VStr (u "foo.bar")),
          stored (u "line_value") (VStr (u "foo.bar"))
            (noted (u "line_value") (Utils.fresh Utils.ascii_request))).
Proof.
  destruct (line_value_is_indexed_line (H := Utils.collaborators)
              (Utils.fresh Utils.ascii_request) (u "a.py")
              {[ u "a.py" := VDict (list_to_map [
                   (u "contents", VStr Utils.two_lines);
                   (u "filetypes", VList [VStr (u "python")]) ]) ]}
              (list_to_map [
                   (u "contents", VStr Utils.two_lines);
                   (u "filetypes", VList [VStr (u "python")]) ])
              (VStr Utils.two_lines)
              [VStr (u "x = 1"); VStr (u "foo.bar")] 2
              ltac:(reflexivity) ltac:(reflexivity) ltac:(reflexivity)
              ltac:(reflexivity) ltac:(reflexivity) ltac:(reflexivity)
              ltac:(reflexivity))
    as (_ & Hin & _).
  destruct Hin as (line & Hline & Hget); [simpl; lia|].
  rewrite Hget. by injection Hline as <-.
Defined.

(** Line 0 of the two lines [x = 1] and [foo.bar] is the last one. *)
Lemma line_value_counts_from_end_witness :
  ∃ line,
    getitem (H := Utils.collaborators) (u "line_value")
      (Utils.fresh (Utils.request_for Utils.two_lines [] 0 1))
    = Some (Ok line,
            stored (u "line_value") line
              (noted (u "line_value")
                 (Utils.fresh (Utils.request_for Utils.two_lines [] 0 1))))
    ∧ line = VStr (u "foo.bar").
Proof.
  destruct (line_value_counts_from_end (H := Utils.collaborators)
              (Utils.fresh (Utils.request_for Utils.two_lines [] 0 1))
              (u "a.py")
              {[ u "a.py" := VDict (list_to_map [
                   (u "contents", VStr Utils.two_lines);
                   (u "filetypes", VList []) ]) ]}
              (list_to_map [
                   (u "contents", VStr Utils.two_lines);
                   (u "filetypes", VList []) ])
              (VStr Utils.two_lines)
              [VStr (u "x = 1"); VStr (u "foo.bar")] 0
              ltac:(reflexivity) ltac:(reflexivity) ltac:(reflexivity)
              ltac:(reflexivity) ltac:(reflexivity) ltac:(reflexivity)
              ltac:(reflexivity)
              ltac:(lia) ltac:(simpl; lia))
    as (line & Hline & Hget & _).
  exists line. split; [exact Hget|]. by injection Hline as <-.
Defined.

Section surface_properties.
Context `{Collaborators}.

(** C8: for every key other than [start_column] and [start_codepoint]
    (a derived field without a setter, a raw request field, or an
    unknown key) and every value, [set] fails with [ValueError] (the
    spec's ReadOnlyFieldError) and changes nothing; so a [set] that
    succeeds is a [set] of one of those two fields. *)
Theorem setitem_read_only key v s :
  key ≠ u "start_column" → key ≠ u "start_codepoint" →
  __setitem__ key v s = Some (Raise ValueError, s)
  ∧ ∀ w s', __setitem__ key w s ≠ Some (Ok (), s').
Proof.
  intros Hcol Hcp.
  assert (∀ w, __setitem__ key w s = Some (Raise ValueError, s)) as Hset.
  { intros w. unfold __setitem__.
    destruct (decide (key ∈ computed_names)) as [Hin|Hno].
    - computed_cases Hin; registry; done.
    - by rewrite computed_key_other. }
  split; [apply Hset|]. intros w s'. by rewrite Hset.
Qed.

(** C9: [has(k)] is true exactly when [k] is a key of the registry of
    derived fields or a key of the raw request, and it returns in the
    state it was called in: no getter is invoked, the cache and the
    request are as before. *)
Theorem contains_is_pure key s :
  ∃ b, __contains__ key s = Some (Ok b, s)
       ∧ (b = true ↔ key ∈ computed_names ∨ is_Some (_request s !! key)).
Proof.
  eexists. split; [reflexivity|].
  rewrite orb_true_iff, !bool_decide_eq_true.
  by rewrite computed_key_is_Some.
Qed.

End surface_properties.

(** [set("line_value", "x")] is rejected. *)
Lemma setitem_read_only_witness :
  __setitem__ (H := Utils.collaborators) (u "line_value") (VStr (u "x"))
    (Utils.fresh Utils.ascii_request)
  = Some (Raise ValueError, Utils.fresh Utils.ascii_request).
Proof.
  apply (setitem_read_only (H := Utils.collaborators) (u "line_value")
           (VStr (u "x")) (Utils.fresh Utils.ascii_request));
    intros E; vm_compute in E; discriminate E.
Defined.


(** ** The filetypes *)

Section filetypes.
Context `{Collaborators}.

Lemma request_lookup_unfold key s :
  request_lookup key s =
  Some (match _request s !! key with
        | Some v => Ok v
        | None => Raise KeyError
        end, s).
Proof. unfold request_lookup. by destruct (_ !! _). Qed.

(** With nothing cached at the keys it reads, [filetypes] is what the
    request declares. *)
Lemma filetypes_run s :
  _cached_computed s !! u "filetypes" = None →
  _cached_computed s !! u "filepath" = None →
  _cached_computed s !! u "file_data" = None →
  getitem (u "filetypes") s =
  match request_filetypes (_request s) with
  | Ok v =>
    Some (Ok v, stored (u "filetypes") v (noted (u "filetypes") s))
  | Raise e => Some (Raise e, noted (u "filetypes") s)
  end.
Proof.
  intros Hkey Hpath Hdata.
  rewrite (getitem_derived _ _ _ _ Hkey (computed_key_filetypes _)).
  rewrite compute_and_cache_unfold. unfold _Filetypes.
  rewrite bind_unfold, getitem_raw, request_lookup_unfold;
    [|done|not_computed].
  unfold request_filetypes. simpl.
  destruct (_request s !! u "filepath") as [path|]; [|done].
  rewrite bind_unfold, getitem_raw, request_lookup_unfold;
    [|done|not_computed].
  simpl. destruct (_request s !! u "file_data") as [file_data|]; [|done].
  unfold lift, mbind, M_bind, result_bind.
  destruct (py_getitem file_data path) as [file_entry|]; [|done].
  by destruct (py_getitem file_entry _).
Qed.

(** [first_filetype], not cached, in terms of the lookup of
    [filetypes]. *)
Lemma first_filetype_run s :
  _cached_computed s !! u "first_filetype" = None →
  getitem (u "first_filetype") s =
  match getitem (u "filetypes") (noted (u "first_filetype") s) with
  | Some (Ok filetypes, s1) =>
    match py_getitem filetypes (VInt 0) with
    | Ok v => Some (Ok v, stored (u "first_filetype") v s1)
    | Raise KeyError | Raise IndexError =>
      Some (Ok VNone, stored (u "first_filetype") VNone s1)
    | Raise e => Some (Raise e, s1)
    end
  | Some (Raise KeyError, s1) | Some (Raise IndexError, s1) =>
    Some (Ok VNone, stored (u "first_filetype") VNone s1)
  | Some (Raise e, s1) => Some (Raise e, s1)
  | None => None
  end.
Proof.
  intros Hkey.
  rewrite (getitem_derived _ _ _ _ Hkey (computed_key_first_filetype _)).
  rewrite compute_and_cache_unfold. unfold _FirstFiletype, try_except.
  rewrite bind_unfold.
  destruct (getitem (u "filetypes") _) as [[[filetypes|e] s1]|]; [| |done].
  - unfold lift. by destruct (py_getitem _ _) as [v|[]].
  - by destruct e.
Qed.
End filetypes.

Section first_filetype_properties.
Context `{Collaborators}.

(** C7: [get("first_filetype")] always returns or raises, and never
    raises [KeyError] or [IndexError]; with nothing cached at the keys
    it reads, it returns the first element of the filetypes that the
    request declares when that list is not empty, and [None] when the
    list is empty, when the lookup of the list raises [KeyError], when
    [file_data] has no entry for the file, and when that entry has no
    [filetypes]. *)
Theorem first_filetype_defaults s :
  (∃ r s', getitem (u "first_filetype") s = Some (r, s')
     ∧ r ≠ Raise KeyError ∧ r ≠ Raise IndexError)
  ∧ (_cached_computed s !! u "first_filetype" = None →
     _cached_computed s !! u "filetypes" = None →
     _cached_computed s !! u "filepath" = None →
     _cached_computed s !! u "file_data" = None →
     (∀ x rest,
        request_filetypes (_request s) = Ok (VList (x :: rest)) →
        fst <$> getitem (u "first_filetype") s = Some (Ok x))
     ∧ (request_filetypes (_request s) = Ok (VList []) →
        fst <$> getitem (u "first_filetype") s = Some (Ok VNone))
     ∧ (request_filetypes (_request s) = Raise KeyError →
        fst <$> getitem (u "first_filetype") s = Some (Ok VNone))
     ∧ (∀ path file_data,
          _request s !! u "filepath" = Some (VStr path) →
          _request s !! u "file_data" = Some (VDict file_data) →
          (file_data !! path = None →
           fst <$> getitem (u "first_filetype") s = Some (Ok VNone))
          ∧ (∀ file_entry,
               file_data !! path = Some (VDict file_entry) →
               file_entry !! u "filetypes" = None →
               fst <$> getitem (u "first_filetype") s = Some (Ok VNone)))).
Proof.
  split.
  - destruct (_cached_computed s !! u "first_filetype") as [v|] eqn:Hkey.
    { exists (Ok v), s. by rewrite (getitem_cached _ _ _ Hkey). }
    rewrite (first_filetype_run _ Hkey).
    destruct (getitem_total (u "filetypes") (noted (u "first_filetype") s))
      as [[[filetypes|e] s1] ->].
    + destruct (py_getitem filetypes (VInt 0)) as [v|[]]; by eexists _, _.
    + destruct e; by eexists _, _.
  - intros Hkey Hfts Hpath Hdata.
    assert (∀ x rest,
              request_filetypes (_request s) = Ok (VList (x :: rest)) →
              fst <$> getitem (u "first_filetype") s = Some (Ok x)) as Hfirst.
    { intros x rest Hdecl.
      rewrite (first_filetype_run _ Hkey), filetypes_run by done.
      simpl. by rewrite Hdecl. }
    assert (request_filetypes (_request s) = Raise KeyError →
            fst <$> getitem (u "first_filetype") s = Some (Ok VNone))
      as Hmissing.
    { intros Hdecl.
      rewrite (first_filetype_run _ Hkey), filetypes_run by done.
      simpl. by rewrite Hdecl. }
    split; [done|]. split; [|split; [done|]].
    + intros Hdecl.
      rewrite (first_filetype_run _ Hkey), filetypes_run by done.
      simpl. by rewrite Hdecl.
    + intros path file_data Hp Hd. split.
      * intros Hentry. apply Hmissing. unfold request_filetypes.
        rewrite Hp, Hd. simpl. by rewrite Hentry.
      * intros file_entry Hentry Hlist. apply Hmissing.
        unfold request_filetypes. rewrite Hp, Hd. simpl.
        rewrite Hentry. simpl. by rewrite Hlist.
Qed.
End first_filetype_properties.

(** An empty filetype list and a file without entry give [None]; the
    list [python] gives [python]. *)
Lemma first_filetype_defaults_witness :
  fst <$> getitem (H := Utils.collaborators) (u "first_filetype")
            (Utils.fresh Utils.multibyte_request)
  = Some (Ok VNone)
  ∧ fst <$> getitem (H := Utils.collaborators) (u "first_filetype")
              (Utils.fresh Utils.orphan_request)
    = Some (Ok VNone)
  ∧ fst <$> getitem (H := Utils.collaborators) (u "first_filetype")
              (Utils.fresh Utils.ascii_request)
    = Some (Ok (VStr (u "python"))).
Proof.
  split; [|split].
  - destruct (first_filetype_defaults (H := Utils.collaborators)
                (Utils.fresh Utils.multibyte_request)) as (_ & Hcases).
    destruct (Hcases ltac:(reflexivity) ltac:(reflexivity) ltac:(reflexivity)
                ltac:(reflexivity)) as (_ & Hempty & _).
    apply Hempty. reflexivity.
  - destruct (first_filetype_defaults (H := Utils.collaborators)
                (Utils.fresh Utils.orphan_request)) as (_ & Hcases).
    destruct (Hcases ltac:(reflexivity) ltac:(reflexivity) ltac:(reflexivity)
                ltac:(reflexivity)) as (_ & _ & _ & Hentry).
    apply (Hentry (u "a.py") ∅); reflexivity.
  - destruct (first_filetype_defaults (H := Utils.collaborators)
                (Utils.fresh Utils.ascii_request)) as (_ & Hcases).
    destruct (Hcases ltac:(reflexivity) ltac:(reflexivity) ltac:(reflexivity)
                ltac:(reflexivity)) as (Hfirst & _).
    apply (Hfirst _ []). reflexivity.
Defined.

Section fallback_lookup.
Context `{Collaborators}.

(** C4, as amended: [get_or(key, default)] returns what [get(key)]
    returns when it succeeds; it returns [default] whenever [get(key)]
    raises [KeyError], both when the key is neither a derived field nor
    in the raw request and when the [KeyError] is raised inside the
    getter of a derived field (so for [line_value] when [file_data] has
    no entry for [filepath]); and it re-raises every other exception. *)
Theorem get_defaults_on_every_KeyError key default s :
  (∃ r s', get key default s = Some (r, s'))
  ∧ (∀ v s', getitem key s = Some (Ok v, s') →
       get key default s = Some (Ok v, s'))
  ∧ (∀ s', getitem key s = Some (Raise KeyError, s') →
       get key default s = Some (Ok default, s'))
  ∧ (∀ e s', e ≠ KeyError → getitem key s = Some (Raise e, s') →
       get key default s = Some (Raise e, s'))
  ∧ (key ∉ computed_names → _cached_computed s !! key = None →
     _request s !! key = None →
     get key default s = Some (Ok default, s))
  ∧ (∀ path file_data,
       key = u "line_value" → _cached_computed s !! key = None →
       _request s !! u "filepath" = Some (VStr path) →
       _request s !! u "file_data" = Some (VDict file_data) →
       file_data !! path = None →
       getitem key s = Some (Raise KeyError, noted key s)
       ∧ get key default s = Some (Ok default, noted key s)).
Proof.
  assert (∀ s', getitem key s = Some (Raise KeyError, s') →
                get key default s = Some (Ok default, s')) as Hkeyerror.
  { intros s' Hget. unfold get, try_except. by rewrite Hget. }
  split; [|split; [|split; [done|split; [|split]]]].
  - unfold get, try_except.
    destruct (getitem_total key s) as [[[v|e] s'] ->]; [by eexists _, _|].
    destruct (bool_decide _); by eexists _, _.
  - intros v s' Hget. unfold get, try_except. by rewrite Hget.
  - intros e s' He Hget. unfold get, try_except. rewrite Hget.
    by rewrite bool_decide_eq_false_2.
  - intros Hno Hkey Hreq. apply Hkeyerror.
    by rewrite getitem_raw, request_lookup_unfold, Hreq.
  - intros path file_data -> Hkey Hpath Hdata Hentry.
    assert (getitem (u "line_value") s
            = Some (Raise KeyError, noted (u "line_value") s)) as Hget.
    { rewrite (getitem_derived _ _ _ _ Hkey (computed_key_line_value _)).
      rewrite compute_and_cache_unfold.
      unfold _CurrentLine, request_lookup, lift, mbind, M_bind.
      simpl. rewrite Hpath. simpl. rewrite Hdata. simpl.
      by rewrite Hentry. }
    split; [done|]. by apply Hkeyerror.
Qed.
End fallback_lookup.

(** C4, as stated, fails: the file of the request has no entry in
    [file_data], so the getter of [line_value] is invoked and raises
    [KeyError]; [get_or("line_value", 7)] returns 7 and does not
    re-raise. *)
Lemma get_swallows_getter_KeyError :
  getitem (H := Utils.collaborators) (u "line_value")
    (Utils.fresh Utils.orphan_request)
  = Some (Raise KeyError,
          noted (u "line_value") (Utils.fresh Utils.orphan_request))
  ∧ get (H := Utils.collaborators) (u "line_value") (VInt 7)
      (Utils.fresh Utils.orphan_request)
    = Some (Ok (VInt 7),
            noted (u "line_value") (Utils.fresh Utils.orphan_request))
  ∧ fst <$> get (H := Utils.collaborators) (u "line_value") (VInt 7)
              (Utils.fresh Utils.orphan_request)
    ≠ Some (Raise KeyError).
Proof. split; [|split]; [vm_compute; reflexivity..|]. vm_compute. discriminate. Qed.

(** The default is returned for [line_value] of a file without entry, and
    for an unknown key. *)
Lemma get_defaults_on_every_KeyError_witness :
  get (H := Utils.collaborators) (u "line_value") (VInt 7)
    (Utils.fresh Utils.orphan_request)
  = Some (Ok (VInt 7),
          noted (u "line_value") (Utils.fresh Utils.orphan_request))
  ∧ get (H := Utils.collaborators) (u "no_such_key") (VInt 7)
      (Utils.fresh Utils.orphan_request)
    = Some (Ok (VInt 7), Utils.fresh Utils.orphan_request).
Proof.
  destruct (get_defaults_on_every_KeyError (H := Utils.collaborators)
              (u "line_value") (VInt 7) (Utils.fresh Utils.orphan_request))
    as (_ & _ & _ & _ & _ & Hline).
  destruct (get_defaults_on_every_KeyError (H := Utils.collaborators)
              (u "no_such_key") (VInt 7) (Utils.fresh Utils.orphan_request))
    as (_ & _ & _ & _ & Hraw & _).
  split.
  - apply (Hline (u "a.py") ∅ ltac:(reflexivity) ltac:(reflexivity)
             ltac:(reflexivity) ltac:(reflexivity) ltac:(reflexivity)).
  - apply Hraw; [not_computed | reflexivity..].
Defined.

(** ** Overriding a start field *)

Section override.
Context `{Collaborators}.

(** The common shape of the two setters: store the value under [k1],
    convert it against [line_value], store the result under [k2], drop
    [query]. *)
Lemma override_run (k1 k2 : ustr) (conv : value → value → result value)
    v s s' :
  k1 ≠ k2 → k1 ≠ u "query" → k2 ≠ u "query" →
  u "line_value" ≠ k2 →
  (_ ← cache_store k1 v;
   line_value ← getitem (u "line_value");
   converted ← lift (conv line_value v);
   _ ← cache_store k2 converted;
   cache_pop (u "query")) s = Some (Ok (), s') →
  ∃ line x,
    _cached_computed s' !! u "line_value" = Some line
    ∧ conv line v = Ok x
    ∧ _cached_computed s' !! k1 = Some v
    ∧ _cached_computed s' !! k2 = Some x
    ∧ _cached_computed s' !! u "query" = None.
Proof.
  intros H12 H1q H2q Hl2.
  rewrite bind_unfold. simpl. rewrite bind_unfold.
  destruct (getitem (u "line_value") _) as [[[line|e] s2]|] eqn:Hline;
    [|done..].
  unfold lift, cache_store, cache_pop, mbind, M_bind.
  destruct (conv line v) as [x|e] eqn:Hconv; [|done].
  intros [= <-]. exists line, x. simpl.
  pose proof (getitem_Ok_cached (u "line_value") _ _ _ ltac:(is_computed)
                Hline) as Hcached.
  apply getitem_grows in Hline as (_ & Hsub & _). simpl in Hsub.
  repeat split; try done.
  - rewrite lookup_delete_ne, lookup_insert_ne by (done || key_ne). done.
  - rewrite lookup_delete_ne, lookup_insert_ne by done.
    eapply lookup_weaken; [|exact Hsub]. apply lookup_insert_eq.
  - rewrite lookup_delete_ne by done. apply lookup_insert_eq.
  - apply lookup_delete_eq.
Qed.

(** The setter returns when [line_value] resolves and the conversion
    succeeds. *)
Lemma override_returns (k1 k2 : ustr) (conv : value → value → result value)
    v s line s1 x :
  getitem (u "line_value") (stored k1 v s) = Some (Ok line, s1) →
  conv line v = Ok x →
  (_ ← cache_store k1 v;
   line_value ← getitem (u "line_value");
   converted ← lift (conv line_value v);
   _ ← cache_store k2 converted;
   cache_pop (u "query")) s
  = Some (Ok (), popped (u "query") (stored k2 x s1)).
Proof.
  intros Hline Hconv. rewrite bind_unfold. simpl.
  change (with_cache _ s) with (stored k1 v s) in Hline.
  rewrite (bind_Ok _ _ _ _ _ Hline).
  unfold lift, cache_store, cache_pop, mbind, M_bind. by rewrite Hconv.
Qed.

(** The setter raises what the lookup of [line_value] raises, after the
    value is stored under [k1]: nothing is stored under [k2] and [query]
    is not dropped. *)
Lemma override_raises (k1 k2 : ustr) (conv : value → value → result value)
    v s e s1 :
  getitem (u "line_value") (stored k1 v s) = Some (Raise e, s1) →
  (_ ← cache_store k1 v;
   line_value ← getitem (u "line_value");
   converted ← lift (conv line_value v);
   _ ← cache_store k2 converted;
   cache_pop (u "query")) s
  = Some (Raise e, s1).
Proof.
  intros Hline. rewrite bind_unfold. simpl.
  change (with_cache _ s) with (stored k1 v s) in Hline.
  by rewrite (bind_Raise _ _ _ _ _ Hline).
Qed.

Lemma override_total (k1 k2 : ustr) (conv : value → value → result value) v :
  total (_ ← cache_store k1 v;
         line_value ← getitem (u "line_value");
         converted ← lift (conv line_value v);
         _ ← cache_store k2 converted;
         cache_pop (u "query")).
Proof. pose proof (getitem_total (u "line_value")). tot. Qed.

(** C1, as amended: [set("start_column", v)] returns or raises; it
    returns when [line_value] resolves and
    [ByteOffsetToCodepointOffset(line_value, v)] succeeds; and after a
    [set] that returns, the cache holds both start fields,
    [get("start_codepoint")] is [ByteOffsetToCodepointOffset(line_value,
    v)] and is served from the cache, and no [query] is cached.
    Symmetrically for [set("start_codepoint", v)], after which
    [get("start_column")] is [CodepointOffsetToByteOffset(line_value,
    v)]. *)
Theorem start_override_determines_counterpart v s :
  ((∃ r s', __setitem__ (u "start_column") v s = Some (r, s'))
   ∧ (∀ line s1 codepoint,
        getitem (u "line_value") (stored (u "start_column") v s)
        = Some (Ok line, s1) →
        ByteOffsetToCodepointOffset line v = Ok codepoint →
        __setitem__ (u "start_column") v s
        = Some (Ok (),
                popped (u "query")
                  (stored (u "start_codepoint") codepoint s1)))
   ∧ (∀ s', __setitem__ (u "start_column") v s = Some (Ok (), s') →
        ∃ line codepoint,
          getitem (u "line_value") s' = Some (Ok line, s')
          ∧ ByteOffsetToCodepointOffset line v = Ok codepoint
          ∧ _cached_computed s' !! u "start_column" = Some v
          ∧ _cached_computed s' !! u "start_codepoint" = Some codepoint
          ∧ _cached_computed s' !! u "query" = None
          ∧ getitem (u "start_column") s' = Some (Ok v, s')
          ∧ getitem (u "start_codepoint") s' = Some (Ok codepoint, s')))
  ∧ ((∃ r s', __setitem__ (u "start_codepoint") v s = Some (r, s'))
     ∧ (∀ line s1 column,
          getitem (u "line_value") (stored (u "start_codepoint") v s)
          = Some (Ok line, s1) →
          CodepointOffsetToByteOffset line v = Ok column →
          __setitem__ (u "start_codepoint") v s
          = Some (Ok (),
                  popped (u "query") (stored (u "start_column") column s1)))
     ∧ (∀ s', __setitem__ (u "start_codepoint") v s = Some (Ok (), s') →
          ∃ line column,
            getitem (u "line_value") s' = Some (Ok line, s')
            ∧ CodepointOffsetToByteOffset line v = Ok column
            ∧ _cached_computed s' !! u "start_codepoint" = Some v
            ∧ _cached_computed s' !! u "start_column" = Some column
            ∧ _cached_computed s' !! u "query" = None
            ∧ getitem (u "start_codepoint") s' = Some (Ok v, s')
            ∧ getitem (u "start_column") s' = Some (Ok column, s'))).
Proof.
  split; unfold __setitem__; registry; (split; [|split]).
  - destruct (override_total (u "start_column") (u "start_codepoint")
                ByteOffsetToCodepointOffset v s) as [[r s'] Hrun].
    by exists r, s'.
  - intros line s1 x. apply override_returns.
  - intros s' Hset.
    apply (override_run (u "start_column") (u "start_codepoint")
             ByteOffsetToCodepointOffset) in Hset
      as (line & x & Hline & Hconv & Hk1 & Hk2 & Hq); try key_ne.
    exists line, x. auto 10 using getitem_cached.
  - destruct (override_total (u "start_codepoint") (u "start_column")
                CodepointOffsetToByteOffset v s) as [[r s'] Hrun].
    by exists r, s'.
  - intros line s1 x. apply override_returns.
  - intros s' Hset.
    apply (override_run (u "start_codepoint") (u "start_column")
             CodepointOffsetToByteOffset) in Hset
      as (line & x & Hline & Hconv & Hk1 & Hk2 & Hq); try key_ne.
    exists line, x. auto 10 using getitem_cached.
Qed.
End override.

(** On the line [ƒøø.∫å®], [set("start_codepoint", 5)] makes
    [start_column] 8, the byte offset of [∫]. *)
Lemma start_override_determines_counterpart_witness :
  __setitem__ (H := Utils.collaborators) (u "start_codepoint") (VInt 5)
    (Utils.fresh Utils.multibyte_request)
  = Some (Ok (), Utils.overridden)
  ∧ getitem (H := Utils.collaborators) (u "start_column") Utils.overridden
    = Some (Ok (VInt 8), Utils.overridden)
  ∧ _cached_computed Utils.overridden !! u "query" = None.
Proof.
  assert (__setitem__ (H := Utils.collaborators) (u "start_codepoint") (VInt 5)
            (Utils.fresh Utils.multibyte_request)
          = Some (Ok (), Utils.overridden)) as Hset
    by (vm_compute; reflexivity).
  split; [exact Hset|].
  destruct (start_override_determines_counterpart (H := Utils.collaborators)
              (VInt 5) (Utils.fresh Utils.multibyte_request))
    as (_ & _ & _ & Hcodepoint).
  destruct (Hcodepoint Utils.overridden Hset)
    as (line & column & Hline & Hconv & _ & _ & Hquery & _ & Hget).
  split; [|exact Hquery].
  assert (getitem (H := Utils.collaborators) (u "line_value") Utils.overridden
          = Some (Ok (VStr Utils.multibyte_line), Utils.overridden)) as Hline'
    by (vm_compute; reflexivity).
  rewrite Hline' in Hline. injection Hline as <-.
  assert (CodepointOffsetToByteOffset (Collaborators := Utils.collaborators)
            (VStr Utils.multibyte_line) (VInt 5) = Ok (VInt 8)) as Hconv'
    by (vm_compute; reflexivity).
  rewrite Hconv' in Hconv. injection Hconv as <-. exact Hget.
Defined.

(** C1, as stated, fails when the [set] raises.  On a file without entry
    in [file_data], [set("start_column", 3)] raises the [KeyError] of
    [line_value] and leaves [start_column] in the cache without
    [start_codepoint].  On the line [ƒøø.∫å®], after [get("query")],
    [set("start_column", 2)] raises, since byte offset 2 lies inside
    [ƒ]: it leaves [start_column] 2 beside the [start_codepoint] 5 of
    the cursor, which [get("start_codepoint")] goes on to return and
    which is not the conversion of 2, and it leaves the cached query. *)
Lemma failed_override_breaks_consistency :
  (__setitem__ (H := Utils.collaborators) (u "start_column") (VInt 3)
     (Utils.fresh Utils.orphan_request)
   = Some (Raise KeyError, Scenarios.failed_override)
   ∧ _cached_computed Scenarios.failed_override !! u "start_column"
     = Some (VInt 3)
   ∧ _cached_computed Scenarios.failed_override !! u "start_codepoint"
     = None)
  ∧ (getitem (H := Utils.collaborators) (u "query")
       (Utils.fresh Utils.multibyte_request)
     = Some (Ok (VStr [8747; 229; 174]%N), Scenarios.queried)
     ∧ __setitem__ (H := Utils.collaborators) (u "start_column") (VInt 2)
         Scenarios.queried
       = Some (Raise UnicodeError, Scenarios.stale_after_failed_override)
     ∧ _cached_computed Scenarios.stale_after_failed_override
         !! u "start_column" = Some (VInt 2)
     ∧ _cached_computed Scenarios.stale_after_failed_override
         !! u "query" = Some (VStr [8747; 229; 174]%N)
     ∧ getitem (H := Utils.collaborators) (u "start_codepoint")
         Scenarios.stale_after_failed_override
       = Some (Ok (VInt 5), Scenarios.stale_after_failed_override)
     ∧ ByteOffsetToCodepointOffset (Collaborators := Utils.collaborators)
         (VStr Utils.multibyte_line) (VInt 2)
       ≠ Ok (VInt 5)).
Proof.
  repeat split; try (vm_compute; reflexivity). vm_compute. discriminate.
Qed.

(** ** The start-position algorithm *)

Section start_position.
Context `{Collaborators}.

(** C2: for a line text that [ToUnicode] returns as it is, the start
    codepoint is [StartOfLongestIdentifierEndingAtIndex(line_value,
    ByteOffsetToCodepointOffset(line_value, column_num) - 1, filetype)
    + 1] and the start column is [CodepointOffsetToByteOffset(line_value,
    start codepoint)]; and when the getter of [start_codepoint]
    (respectively [start_column]) runs and resolves [line_value],
    [column_num] and [first_filetype], [get] returns that result and
    caches it. *)
Theorem start_position_algorithm line column_num filetype :
  ToUnicode (VStr line) = Ok (VStr line) →
  CompletionStartCodepoint (VStr line) column_num filetype
  = spec_start_codepoint (VStr line) column_num filetype
  ∧ CompletionStartColumn (VStr line) column_num filetype
    = spec_start_column (VStr line) column_num filetype
  ∧ (∀ s s1 s2 s3,
       _cached_computed s !! u "start_codepoint" = None →
       getitem (u "line_value") (noted (u "start_codepoint") s)
       = Some (Ok (VStr line), s1) →
       getitem (u "column_num") s1 = Some (Ok column_num, s2) →
       getitem (u "first_filetype") s2 = Some (Ok filetype, s3) →
       getitem (u "start_codepoint") s =
       match spec_start_codepoint (VStr line) column_num filetype with
       | Ok v => Some (Ok v, stored (u "start_codepoint") v s3)
       | Raise e => Some (Raise e, s3)
       end)
  ∧ (∀ s s1 s2 s3,
       _cached_computed s !! u "start_column" = None →
       getitem (u "line_value") (noted (u "start_column") s)
       = Some (Ok (VStr line), s1) →
       getitem (u "column_num") s1 = Some (Ok column_num, s2) →
       getitem (u "first_filetype") s2 = Some (Ok filetype, s3) →
       getitem (u "start_column") s =
       match spec_start_column (VStr line) column_num filetype with
       | Ok v => Some (Ok v, stored (u "start_column") v s3)
       | Raise e => Some (Raise e, s3)
       end).
Proof.
  intros Hunicode.
  assert (CompletionStartCodepoint (VStr line) column_num filetype
          = spec_start_codepoint (VStr line) column_num filetype) as Hcp.
  { unfold CompletionStartCodepoint, spec_start_codepoint.
    unfold mbind, result_bind. rewrite Hunicode.
    by destruct (ByteOffsetToCodepointOffset _ _). }
  assert (CompletionStartColumn (VStr line) column_num filetype
          = spec_start_column (VStr line) column_num filetype) as Hcol.
  { unfold CompletionStartColumn, spec_start_column.
    unfold mbind at 1, result_bind at 1. by rewrite Hunicode, Hcp. }
  split; [done|]. split; [done|]. split.
  - intros s s1 s2 s3 Hkey Hline Hnum Hft.
    rewrite (getitem_derived _ _ _ _ Hkey (computed_key_start_codepoint _)).
    rewrite compute_and_cache_unfold. unfold _GetCompletionStartCodepoint.
    rewrite (bind_Ok _ _ _ _ _ Hline), (bind_Ok _ _ _ _ _ Hnum),
      (bind_Ok _ _ _ _ _ Hft).
    unfold lift. rewrite Hcp. by destruct (spec_start_codepoint _ _ _).
  - intros s s1 s2 s3 Hkey Hline Hnum Hft.
    rewrite (getitem_derived _ _ _ _ Hkey (computed_key_start_column _)).
    rewrite compute_and_cache_unfold. unfold _GetCompletionStartColumn.
    rewrite (bind_Ok _ _ _ _ _ Hline), (bind_Ok _ _ _ _ _ Hnum),
      (bind_Ok _ _ _ _ _ Hft).
    unfold lift. rewrite Hcol. by destruct (spec_start_column _ _ _).
Qed.
End start_position.

(** On the line [ƒøø.∫å®] with the cursor past [®], the start codepoint is
    5 and the start column is 8. *)
Lemma start_position_algorithm_witness :
  fst <$> getitem (H := Utils.collaborators) (u "start_codepoint")
            (Utils.fresh Utils.multibyte_request)
  = Some (Ok (VInt 5))
  ∧ fst <$> getitem (H := Utils.collaborators) (u "start_column")
              (Utils.fresh Utils.multibyte_request)
    = Some (Ok (VInt 8)).
Proof.
  destruct (start_position_algorithm (H := Utils.collaborators)
              Utils.multibyte_line (VInt 15) VNone eq_refl)
    as (_ & _ & Hcodepoint & Hcolumn).
  split.
  - erewrite (Hcodepoint (Utils.fresh Utils.multibyte_request)); cycle 1;
      [reflexivity | vm_compute; reflexivity.. |]. vm_compute. reflexivity.
  - erewrite (Hcolumn (Utils.fresh Utils.multibyte_request)); cycle 1;
      [reflexivity | vm_compute; reflexivity.. |]. vm_compute. reflexivity.
Defined.

(** ** Slicing a sequence *)

Section seq_slice.
Context {A : Type}.
Implicit Types (l : list A) (p lo hi : Z).

Lemma positions_between_take l p lo hi :
  lo ≤ p → positions_between l p lo hi = take (Z.to_nat (hi - p)) l.
Proof.
  revert p. induction l as [|x l IH]; intros p Hp; simpl.
  { by rewrite take_nil. }
  destruct (Z.leb_spec lo p); [|lia].
  destruct (Z.ltb_spec p hi); simpl.
  - rewrite IH by lia.
    replace (Z.to_nat (hi - p)) with (S (Z.to_nat (hi - (p + 1)))) by lia.
    done.
  - rewrite IH by lia.
    replace (Z.to_nat (hi - (p + 1))) with 0%nat by lia.
    by replace (Z.to_nat (hi - p)) with 0%nat by lia.
Qed.

Lemma positions_between_drop l p lo hi :
  p ≤ lo →
  positions_between l p lo hi
  = positions_between (drop (Z.to_nat (lo - p)) l) lo lo hi.
Proof.
  revert p. induction l as [|x l IH]; intros p Hp.
  { by rewrite drop_nil. }
  destruct (decide (p = lo)) as [->|Hne].
  { by rewrite Z.sub_diag. }
  simpl. destruct (Z.leb_spec lo p); [lia|]. simpl.
  rewrite IH by lia.
  by replace (Z.to_nat (lo - p)) with (S (Z.to_nat (lo - (p + 1)))) by lia.
Qed.

Lemma substring_between_take_drop l lo hi :
  0 ≤ lo →
  substring_between l lo hi
  = take (Z.to_nat (hi - lo)) (drop (Z.to_nat lo) l).
Proof.
  intros Hlo. unfold substring_between.
  rewrite positions_between_drop, positions_between_take by lia.
  by rewrite Z.sub_0_r.
Qed.

(** With both bounds at or after the start of the sequence, the slice is
    the substring between the bounds. *)
Lemma seq_slice_substring l lo hi :
  0 ≤ lo → 0 ≤ hi → seq_slice l lo hi = substring_between l lo hi.
Proof.
  intros Hlo Hhi. rewrite substring_between_take_drop by done.
  unfold seq_slice, slice_bound.
  destruct (Z.ltb_spec lo 0); [lia|]. destruct (Z.ltb_spec hi 0); [lia|].
  destruct (Z.le_gt_cases (Z.of_nat (length l)) lo) as [Hge|Hlt].
  { rewrite !drop_ge by lia. by rewrite !take_nil. }
  rewrite (Z.min_l lo) by lia.
  destruct (Z.le_gt_cases (Z.of_nat (length l)) hi) as [Hge'|Hlt'].
  - rewrite !take_ge; [done|rewrite length_drop; lia..].
  - by rewrite (Z.min_l hi) by lia.
Qed.

(** An inverted or empty range whose bounds lie on the same side of the
    start of the sequence gives the empty slice. *)
Lemma seq_slice_empty l lo hi :
  hi ≤ lo → 0 ≤ hi ∨ lo < 0 → seq_slice l lo hi = [].
Proof.
  intros Hle Hside. unfold seq_slice, slice_bound.
  destruct (Z.ltb_spec lo 0), (Z.ltb_spec hi 0);
    try lia; match goal with
             | |- take ?n _ = _ => replace n with 0%nat by lia
             end; done.
Qed.

(** A negative lower bound counts from the end of the sequence. *)
Lemma seq_slice_wraps l lo hi :
  lo < 0 → 0 ≤ hi →
  seq_slice l lo hi
  = substring_between l (Z.max (Z.of_nat (length l) + lo) 0) hi.
Proof.
  intros Hlo Hhi. rewrite <- seq_slice_substring by lia.
  unfold seq_slice, slice_bound.
  destruct (Z.ltb_spec lo 0); [|lia]. destruct (Z.ltb_spec hi 0); [lia|].
  destruct (Z.ltb_spec (Z.max (Z.of_nat (length l) + lo) 0) 0); [lia|].
  by replace (Z.min (Z.max (Z.of_nat (length l) + lo) 0)
                (Z.of_nat (length l)))
    with (Z.max (lo + Z.of_nat (length l)) 0) by lia.
Qed.
End seq_slice.

(** An inverted range whose bounds lie on different sides of the start
    need not give the empty slice: ['ab'[0:-1]] is ['a']. *)
Lemma seq_slice_inverted_across_start :
  seq_slice (u "ab") (1 - 1) (0 - 1) = u "a".
Proof. reflexivity. Qed.

(** ** The query *)

Section query.
Context `{Collaborators}.

(** C3, as amended: when the getter of [query] runs and resolves
    [line_value] to a text and [start_codepoint], [column_codepoint] to
    integers, [get("query")] returns the slice
    [line_value[start_codepoint - 1 : column_codepoint - 1]] and caches
    it.  When both offsets are at least 1 the slice is the substring
    from the 0-based position [start_codepoint - 1] up to (excluding)
    [column_codepoint - 1].  It is empty when [start_codepoint >=
    column_codepoint] and either [column_codepoint >= 1] or
    [start_codepoint <= 0].  When [start_codepoint <= 0] and
    [column_codepoint >= 1] the lower bound counts from the end of the
    line. *)
Theorem query_is_python_slice line sc cc s s1 s2 s3 :
  _cached_computed s !! u "query" = None →
  getitem (u "line_value") (noted (u "query") s)
  = Some (Ok (VStr line), s1) →
  getitem (u "start_codepoint") s1 = Some (Ok (VInt sc), s2) →
  getitem (u "column_codepoint") s2 = Some (Ok (VInt cc), s3) →
  getitem (u "query") s
  = Some (Ok (VStr (seq_slice line (sc - 1) (cc - 1))),
          stored (u "query") (VStr (seq_slice line (sc - 1) (cc - 1))) s3)
  ∧ (1 ≤ sc → 1 ≤ cc →
     seq_slice line (sc - 1) (cc - 1)
     = substring_between line (sc - 1) (cc - 1))
  ∧ (cc ≤ sc → 1 ≤ cc ∨ sc ≤ 0 → seq_slice line (sc - 1) (cc - 1) = [])
  ∧ (sc ≤ 0 → 1 ≤ cc →
     seq_slice line (sc - 1) (cc - 1)
     = substring_between line
         (Z.max (Z.of_nat (length line) + (sc - 1)) 0) (cc - 1)).
Proof.
  intros Hkey Hline Hstart Hcolumn. split; [|split; [|split]].
  - rewrite (getitem_derived _ _ _ _ Hkey (computed_key_query _)).
    rewrite compute_and_cache_unfold. unfold _Query.
    rewrite (bind_Ok _ _ _ _ _ Hline), (bind_Ok _ _ _ _ _ Hstart).
    unfold lift at 1. rewrite bind_unfold. simpl.
    by rewrite (bind_Ok _ _ _ _ _ Hcolumn).
  - intros Hsc Hcc. apply seq_slice_substring; lia.
  - intros Hle Hside. apply seq_slice_empty; lia.
  - intros Hsc Hcc. apply seq_slice_wraps; lia.
Qed.
End query.

(** C3, as stated, fails: after [set("start_codepoint", 0)] on the line
    [foo.bar] with the cursor at codepoint 8, [get("query")] returns [r],
    which is neither the substring between the positions [0 - 1] and
    [8 - 1] nor the empty string. *)
Lemma query_wraps_when_start_is_zero :
  __setitem__ (H := Utils.collaborators) (u "start_codepoint") (VInt 0)
    (Utils.fresh Utils.line_request)
  = Some (Ok (), Utils.start_at_zero)
  ∧ fst <$> getitem (H := Utils.collaborators) (u "line_value")
              Utils.start_at_zero
    = Some (Ok (VStr (u "foo.bar")))
  ∧ fst <$> getitem (H := Utils.collaborators) (u "start_codepoint")
              Utils.start_at_zero
    = Some (Ok (VInt 0))
  ∧ fst <$> getitem (H := Utils.collaborators) (u "column_codepoint")
              Utils.start_at_zero
    = Some (Ok (VInt 8))
  ∧ fst <$> getitem (H := Utils.collaborators) (u "query") Utils.start_at_zero
    = Some (Ok (VStr (u "r")))
  ∧ fst <$> getitem (H := Utils.collaborators) (u "query") Utils.start_at_zero
    ≠ Some (Ok (VStr (substring_between (u "foo.bar") (0 - 1) (8 - 1))))
  ∧ fst <$> getitem (H := Utils.collaborators) (u "query") Utils.start_at_zero
    ≠ Some (Ok (VStr [])).
Proof.
  repeat split; try (vm_compute; reflexivity); vm_compute; discriminate.
Qed.

(** On the line [ƒøø.∫å®] with the cursor past [®], the query is [∫å®]. *)
Lemma query_is_python_slice_witness :
  fst <$> getitem (H := Utils.collaborators) (u "query")
            (Utils.fresh Utils.multibyte_request)
  = Some (Ok (VStr [8747; 229; 174]%N)).
Proof.
  edestruct (query_is_python_slice (H := Utils.collaborators)
               Utils.multibyte_line 5 8
               (Utils.fresh Utils.multibyte_request))
    as (Hget & Hsub & _); cycle 4.
  - rewrite Hget. simpl. rewrite Hsub by lia. reflexivity.
  - reflexivity.
  - vm_compute. reflexivity.
  - vm_compute. reflexivity.
  - vm_compute. reflexivity.
Defined.

(** ** Lookups as functions of the request *)

Section mirrors.
Context {A B : Type}.
Variable P : RequestWrap → Prop.

Lemma mirrors_bind (m : M A) (f : A → M B) (p : result A)
    (g : A → result B) cond :
  mirrors P m p cond → (∀ a, mirrors P (f a) (g a) cond) →
  mirrors P (m ≫= f) (p ≫= g) cond.
Proof.
  intros Hm Hf s r s' HP. rewrite bind_unfold.
  destruct (m s) as [[[a|e] s1]|] eqn:Hrun; [| |done].
  - intros Hrun'. destruct (Hm _ _ _ HP Hrun) as [HP1 Hp].
    destruct (Hf a _ _ _ HP1 Hrun') as [HP' Hg]. split; [done|].
    intros Hcond. by rewrite <- (Hp Hcond), (Hg Hcond).
  - intros [= <- <-]. destruct (Hm _ _ _ HP Hrun) as [HP1 Hp].
    split; [done|]. intros Hcond. by rewrite <- (Hp Hcond).
Qed.

Lemma mirrors_try (body handler : M A) (p h : result A) caught cond :
  mirrors P body p cond → mirrors P handler h cond →
  mirrors P (try_except body caught handler)
    (result_try_except p caught h) cond.
Proof.
  intros Hb Hh s r s' HP. unfold try_except.
  destruct (body s) as [[[a|e] s1]|] eqn:Hrun; [| |done].
  - intros [= <- <-]. destruct (Hb _ _ _ HP Hrun) as [HP1 Hp].
    split; [done|]. intros Hcond. by rewrite <- (Hp Hcond).
  - destruct (Hb _ _ _ HP Hrun) as [HP1 Hp].
    destruct (caught e) eqn:Hcaught.
    + intros Hrun'. destruct (Hh _ _ _ HP1 Hrun') as [HP' Hh'].
      split; [done|]. intros Hcond. rewrite <- (Hp Hcond). simpl.
      rewrite Hcaught. by apply Hh'.
    + intros [= <- <-]. split; [done|]. intros Hcond.
      rewrite <- (Hp Hcond). simpl. by rewrite Hcaught.
Qed.

Lemma mirrors_lift (r : result A) cond : mirrors P (lift r) r cond.
Proof. by intros s r' s' HP [= <- <-]. Qed.

Lemma mirrors_ret (a : A) cond : mirrors P (mret a) (Ok a) cond.
Proof. by intros s r' s' HP [= <- <-]. Qed.

Lemma mirrors_weaken (m : M A) (p : result A) (cond cond' : Prop) :
  (cond' → cond) → mirrors P m p cond → mirrors P m p cond'.
Proof.
  intros Hcond Hm s r s' HP Hrun. destruct (Hm _ _ _ HP Hrun). auto.
Qed.
End mirrors.

Section transparency.
Context `{Collaborators}.
Implicit Types (pristine : bool) (request : gmap ustr value).

Lemma pure_field_raw request key :
  key ∉ computed_names → pure_field request key = raw_field request key.
Proof.
  intros Hno. unfold pure_field.
  repeat (case_decide as Hkey;
          [exfalso; apply Hno; rewrite Hkey; is_computed|clear Hkey]).
  done.
Qed.

Lemma consistent_noted pristine request key s :
  consistent pristine request s → consistent pristine request (noted key s).
Proof. done. Qed.

Lemma consistent_stored pristine request key v s :
  key ∈ computed_names →
  (transparent pristine key = true → pure_field request key = Ok v) →
  consistent pristine request s →
  consistent pristine request (stored key v s).
Proof.
  intros Hin Hv (Hreq & Hreg & Hpure). split; [done|]. split.
  - intros k. simpl. destruct (decide (k = key)) as [->|Hne]; [done|].
    rewrite lookup_insert_ne by done. apply Hreg.
  - intros k w. simpl. destruct (decide (k = key)) as [->|Hne].
    + rewrite lookup_insert_eq. intros [= <-]. done.
    + rewrite lookup_insert_ne by done. apply Hpure.
Qed.

Lemma consistent_popped pristine request key s :
  consistent pristine request s → consistent pristine request (popped key s).
Proof.
  intros (Hreq & Hreg & Hpure). split; [done|]. split.
  - intros k. simpl. destruct (decide (k = key)) as [->|Hne].
    + rewrite lookup_delete_eq. by intros [? ?].
    + rewrite lookup_delete_ne by done. apply Hreg.
  - intros k w. simpl. destruct (decide (k = key)) as [->|Hne].
    + by rewrite lookup_delete_eq.
    + rewrite lookup_delete_ne by done. apply Hpure.
Qed.

Lemma mirrors_request_lookup pristine request key cond :
  mirrors (consistent pristine request) (request_lookup key)
    (raw_field request key) cond.
Proof.
  intros s r s' Hs. rewrite request_lookup_unfold. intros [= <- <-].
  split; [done|]. intros _. unfold raw_field. by destruct Hs as [-> _].
Qed.

Lemma mirrors_compute_and_cache pristine request key (g : M value) :
  key ∈ computed_names →
  mirrors (consistent pristine request) g (pure_field request key)
    (transparent pristine key = true) →
  mirrors (consistent pristine request) (compute_and_cache key g)
    (pure_field request key) (transparent pristine key = true).
Proof.
  intros Hin Hg s r s' Hs. rewrite compute_and_cache_unfold.
  destruct (g _) as [[[v|e] s1]|] eqn:Hrun; [| |done].
  - intros [= <- <-].
    destruct (Hg _ _ _ (consistent_noted _ _ key _ Hs) Hrun) as [Hs1 Hv].
    split; [|done]. apply consistent_stored; [done| |done].
    intros Ht. by rewrite <- (Hv Ht).
  - intros [= <- <-].
    by destruct (Hg _ _ _ (consistent_noted _ _ key _ Hs) Hrun).
Qed.

(** The nested lookups of a transparent key are transparent. *)
Ltac transparent_key :=
  unfold transparent;
  match goal with |- context [?b || _] => destruct b end;
  vm_compute; auto.

(** Proves that a getter body mirrors its pure reading; [nested] proves
    it of the nested lookups. *)
Ltac mir nested :=
  repeat first
    [ apply mirrors_lift
    | apply mirrors_ret
    | apply mirrors_request_lookup
    | apply mirrors_try
    | apply mirrors_bind; [| intros ?]
    | match goal with
      | |- mirrors _ (getitem ?k) _ (transparent ?b _ = true) =>
        apply (mirrors_weaken _ _ _ (transparent b k = true));
          [transparent_key|]; nested k
      end ].

Lemma getitem_mirrors pristine request key :
  mirrors (consistent pristine request) (getitem key)
    (pure_field request key) (transparent pristine key = true).
Proof.
  remember (rank key) as d eqn:Hd. revert key Hd.
  induction d as [d IH] using lt_wf_ind. intros key -> s r s' Hs.
  rewrite getitem_eq.
  destruct (_cached_computed s !! key) as [v|] eqn:Hkey.
  { intros [= <- <-]. split; [done|]. intros Ht. symmetry.
    by apply Hs. }
  revert s r s' Hkey Hs.
  assert (mirrors (consistent pristine request)
            (λ s, match _computed_key getitem !! key with
                  | Some (getter, _) => compute_and_cache key getter s
                  | None => request_lookup key s
                  end)
            (pure_field request key) (transparent pristine key = true))
    as Hrun; [|intros s r s' _; apply Hrun].
  destruct (decide (key ∈ computed_names)) as [Hin|Hno].
  - pose proof Hin as Hin'.
    computed_cases Hin; registry;
      (apply mirrors_compute_and_cache; [done|]);
      unfold _CurrentLine, _GetCompletionStartCodepoint,
        column_codepoint_getter, line_bytes_getter,
        _GetCompletionStartColumn, _Query, _Filetypes, _FirstFiletype;
      mir ltac:(fun k => apply (IH (rank k));
                         [vm_compute; lia | reflexivity]).
  - rewrite computed_key_other, pure_field_raw by done.
    apply mirrors_request_lookup.
Qed.
End transparency.

(** ** Views reached by sequences of calls *)

Section reachable.
Context `{Collaborators}.
Implicit Types (pristine : bool) (request : gmap ustr value).

Lemma getitem_consistent pristine request key s r s' :
  consistent pristine request s → getitem key s = Some (r, s') →
  consistent pristine request s'
  ∧ (transparent pristine key = true → r = pure_field request key).
Proof. apply getitem_mirrors. Qed.

Lemma consistent_weaken request s :
  consistent true request s → consistent false request s.
Proof.
  intros (Hreq & Hreg & Hpure). repeat split; [done..|].
  intros key v Hkey _. by apply Hpure.
Qed.

Lemma init_consistent request validate s0 :
  __init__ request validate = Ok s0 → consistent true request s0.
Proof.
  unfold __init__.
  destruct (if validate then _ else _); [|done]. intros [= <-].
  split; [done|]. split.
  - intros key. simpl. rewrite lookup_empty. by intros [? ?].
  - intros key v. simpl. by rewrite lookup_empty.
Qed.

Lemma get_consistent pristine request key default s r s' :
  consistent pristine request s → get key default s = Some (r, s') →
  consistent pristine request s'.
Proof.
  intros Hs. unfold get, try_except.
  destruct (getitem key s) as [[[v|e] s1]|] eqn:Hrun; [| |done].
  - intros [= <- <-]. by eapply getitem_consistent.
  - destruct (bool_decide _); intros [= <- <-]; by eapply getitem_consistent.
Qed.

(** The common shape of the two setters keeps the view consistent; its
    stores are at overridable keys. *)
Lemma override_consistent (k1 k2 : ustr) (conv : value → value → result value)
    request v s r s' :
  k1 ∈ computed_names → k2 ∈ computed_names →
  transparent false k1 = false → transparent false k2 = false →
  consistent false request s →
  (_ ← cache_store k1 v;
   line_value ← getitem (u "line_value");
   converted ← lift (conv line_value v);
   _ ← cache_store k2 converted;
   cache_pop (u "query")) s = Some (r, s') →
  consistent false request s'.
Proof.
  intros Hin1 Hin2 Ht1 Ht2 Hs. rewrite bind_unfold. simpl.
  rewrite bind_unfold.
  assert (consistent false request (stored k1 v s)) as Hs1.
  { apply consistent_stored; [done| |done]. by rewrite Ht1. }
  change (with_cache _ s) with (stored k1 v s).
  destruct (getitem (u "line_value") _) as [[[line|e] s2]|] eqn:Hline;
    [| |done].
  - apply (getitem_consistent _ _ _ _ _ _ Hs1) in Hline as [Hs2 _].
    unfold lift, cache_store, cache_pop, mbind, M_bind.
    destruct (conv line v) as [x|e]; intros [= <- <-]; [|done].
    apply (consistent_popped _ _ (u "query") (stored k2 x s2)).
    apply consistent_stored; [done| |done]. by rewrite Ht2.
  - intros [= <- <-].
    by apply (getitem_consistent _ _ _ _ _ _ Hs1) in Hline as [Hs2 _].
Qed.

Lemma setitem_consistent request key v s r s' :
  consistent false request s → __setitem__ key v s = Some (r, s') →
  consistent false request s'.
Proof.
  intros Hs. unfold __setitem__.
  destruct (decide (key ∈ computed_names)) as [Hin|Hno].
  - computed_cases Hin; registry; try by intros [= <- <-].
    + apply override_consistent; [is_computed..|reflexivity|reflexivity|done].
    + apply override_consistent; [is_computed..|reflexivity|reflexivity|done].
  - rewrite computed_key_other by done. by intros [= <- <-].
Qed.

Lemma perform_consistent request c s s' :
  consistent false request s → perform c s = Some s' →
  consistent false request s'.
Proof.
  intros Hs. destruct c as [key|key default|key|key v]; simpl.
  - destruct (getitem key s) as [[r s1]|] eqn:Hrun; intros [= <-].
    by eapply getitem_consistent.
  - destruct (get key default s) as [[r s1]|] eqn:Hrun; intros [= <-].
    by eapply get_consistent.
  - by intros [= <-].
  - destruct (__setitem__ key v s) as [[r s1]|] eqn:Hrun; intros [= <-].
    by eapply setitem_consistent.
Qed.

Lemma perform_read_consistent request c s s' :
  is_read c = true → consistent true request s → perform c s = Some s' →
  consistent true request s'.
Proof.
  intros Hread Hs. destruct c as [key|key default|key|key v]; simpl; [..|done].
  - destruct (getitem key s) as [[r s1]|] eqn:Hrun; intros [= <-].
    by eapply getitem_consistent.
  - destruct (get key default s) as [[r s1]|] eqn:Hrun; intros [= <-].
    by eapply get_consistent.
  - by intros [= <-].
Qed.

Lemma setitem_total key v : total (__setitem__ key v).
Proof.
  unfold __setitem__.
  destruct (_computed_key getitem !! key) as [[g [setter|]]|] eqn:Hreg;
    [|apply total_raise..].
  assert (key ∈ computed_names) as Hin by (by eapply computed_key_is_Some).
  computed_cases Hin; revert Hreg; registry; intros [= <- <-];
    apply override_total.
Qed.

Lemma perform_total c s : is_Some (perform c s).
Proof.
  destruct c as [key|key default|key|key v]; simpl.
  - destruct (getitem_total key s) as [[r s'] ->]. by eexists.
  - assert (total (get key default)) as Htotal.
    { unfold get. apply total_try; [apply getitem_total | apply total_ret]. }
    destruct (Htotal s) as [[r s'] ->]. by eexists.
  - by eexists.
  - destruct (setitem_total key v s) as [[r s'] ->]. by eexists.
Qed.

Lemma perform_all_total calls s : is_Some (perform_all calls s).
Proof.
  revert s. induction calls as [|c calls IH]; intros s; simpl; [by eexists|].
  destruct (perform_total c s) as [s' ->]. apply IH.
Qed.

Lemma perform_all_consistent request calls s s' :
  consistent false request s → perform_all calls s = Some s' →
  consistent false request s'.
Proof.
  revert s. induction calls as [|c calls IH]; intros s Hs; simpl.
  { by intros [= <-]. }
  destruct (perform c s) as [s1|] eqn:Hc; [|done]. simpl.
  apply IH. by eapply perform_consistent.
Qed.

Lemma perform_all_read_consistent request calls s s' :
  forallb is_read calls = true →
  consistent true request s → perform_all calls s = Some s' →
  consistent true request s'.
Proof.
  revert s. induction calls as [|c calls IH]; intros s Hread Hs; simpl.
  { by intros [= <-]. }
  simpl in Hread. apply andb_true_iff in Hread as [Hc Hcalls].
  destruct (perform c s) as [s1|] eqn:Hrun; [|done]. simpl.
  apply IH; [done|]. by eapply perform_read_consistent.
Qed.

Lemma getitem_result pristine request key s :
  consistent pristine request s → transparent pristine key = true →
  fst <$> getitem key s = Some (pure_field request key).
Proof.
  intros Hs Ht. destruct (getitem_total key s) as [[r s'] Hrun].
  rewrite Hrun. simpl.
  by destruct (getitem_consistent _ _ _ _ _ _ Hs Hrun) as [_ ->].
Qed.

(** X1: a view constructed from [request] completes every sequence of
    [get], [get_or], [has] and [set] calls, each of which returns or
    raises; after it the view holds [request] unchanged, and only keys of
    the registry are cached: a raw field is never cached or written. *)
Theorem view_keeps_request_and_registry request validate s0 calls :
  __init__ request validate = Ok s0 →
  ∃ s, perform_all calls s0 = Some s
       ∧ _request s = request
       ∧ registered_cache s.
Proof.
  intros Hinit. destruct (perform_all_total calls s0) as [s Hrun].
  exists s. split; [done|].
  apply init_consistent, consistent_weaken in Hinit.
  by destruct (perform_all_consistent _ _ _ _ Hinit Hrun) as (? & ? & _).
Qed.

(** X2: after any sequence of calls on a constructed view, overrides
    included, the lookup of a key other than [start_codepoint],
    [start_column] and [query] returns or raises exactly what the key is
    as a function of the request: neither the cache nor an override makes
    a difference. *)
Theorem read_only_field_is_function_of_request
    request validate s0 calls s key :
  __init__ request validate = Ok s0 →
  perform_all calls s0 = Some s →
  key ∉ overridable →
  fst <$> getitem key s = Some (pure_field request key).
Proof.
  intros Hinit Hrun Hkey.
  apply init_consistent, consistent_weaken in Hinit.
  apply (getitem_result false); [by eapply perform_all_consistent|].
  unfold transparent. simpl. by apply bool_decide_eq_true_2.
Qed.

(** X3: as long as no [set] is called, the lookup of every key,
    [query], [start_codepoint] and [start_column] included, returns or
    raises what the key is as a function of the request. *)
Theorem unoverridden_field_is_function_of_request
    request validate s0 calls s key :
  __init__ request validate = Ok s0 →
  forallb is_read calls = true →
  perform_all calls s0 = Some s →
  fst <$> getitem key s = Some (pure_field request key).
Proof.
  intros Hinit Hread Hrun. apply init_consistent in Hinit.
  apply (getitem_result true); [|done].
  by eapply perform_all_read_consistent.
Qed.

Lemma raw_field_footprint request1 request2 key :
  request1 !! key = request2 !! key →
  raw_field request1 key = raw_field request2 key.
Proof. intros Hkey. unfold raw_field. by rewrite Hkey. Qed.

Lemma pure_field_footprint request1 request2 key :
  key ∈ computed_names →
  (∀ k, k ∈ raw_reads → request1 !! k = request2 !! k) →
  pure_field request1 key = pure_field request2 key.
Proof.
  intros Hin Hraw.
  assert (∀ k, k ∈ raw_reads → raw_field request1 k = raw_field request2 k)
    as Hfield by (intros k Hk; by apply raw_field_footprint, Hraw).
  pose proof (Hfield (u "filepath") ltac:(is_computed)) as Hpath.
  pose proof (Hfield (u "file_data") ltac:(is_computed)) as Hdata.
  pose proof (Hfield (u "line_num") ltac:(is_computed)) as Hline.
  pose proof (Hfield (u "column_num") ltac:(is_computed)) as Hcolumn.
  assert (pure_line_value request1 = pure_line_value request2) as Hlv.
  { unfold pure_line_value. by rewrite Hpath, Hdata, Hline. }
  assert (pure_filetypes request1 = pure_filetypes request2) as Hfts.
  { unfold pure_filetypes. by rewrite Hpath, Hdata. }
  assert (pure_first_filetype request1 = pure_first_filetype request2) as Hff.
  { unfold pure_first_filetype. by rewrite Hfts. }
  assert (pure_line_bytes request1 = pure_line_bytes request2) as Hlb.
  { unfold pure_line_bytes. by rewrite Hlv. }
  assert (pure_column_codepoint request1 = pure_column_codepoint request2)
    as Hcc.
  { unfold pure_column_codepoint. by rewrite Hlb, Hcolumn. }
  assert (pure_start_codepoint request1 = pure_start_codepoint request2)
    as Hsc.
  { unfold pure_start_codepoint. by rewrite Hlv, Hcolumn, Hff. }
  assert (pure_start_column request1 = pure_start_column request2) as Hcol.
  { unfold pure_start_column. by rewrite Hlv, Hcolumn, Hff. }
  assert (pure_query request1 = pure_query request2) as Hq.
  { unfold pure_query. by rewrite Hlv, Hsc, Hcc. }
  computed_cases Hin; done.
Qed.

(** X4: the lookups of the derived fields read the raw request at
    [filepath], [file_data], [line_num] and [column_num] only.  On two
    constructed views whose requests agree there, whatever else the
    requests hold (a raw field named like a derived one included), the
    lookup of [line_value], [line_bytes], [column_codepoint],
    [filetypes] or [first_filetype] gives the same whatever calls were
    made on either view, and the lookup of [start_codepoint],
    [start_column] or [query] gives the same when no [set] was called
    on either view. *)
Theorem derived_fields_read_four_raw_fields
    request1 request2 validate1 validate2 s1 s2 calls1 calls2 t1 t2 key :
  __init__ request1 validate1 = Ok s1 →
  __init__ request2 validate2 = Ok s2 →
  perform_all calls1 s1 = Some t1 →
  perform_all calls2 s2 = Some t2 →
  (∀ k, k ∈ raw_reads → request1 !! k = request2 !! k) →
  key ∈ computed_names →
  key ∉ overridable
  ∨ forallb is_read calls1 = true ∧ forallb is_read calls2 = true →
  fst <$> getitem key t1 = fst <$> getitem key t2.
Proof.
  intros Hinit1 Hinit2 Hrun1 Hrun2 Hraw Hin [Hkey|[Hread1 Hread2]].
  - apply init_consistent, consistent_weaken in Hinit1, Hinit2.
    rewrite (getitem_result false request1), (getitem_result false request2);
      [by rewrite (pure_field_footprint request1 request2)
      |by eapply perform_all_consistent
      |unfold transparent; simpl; by apply bool_decide_eq_true_2
      |by eapply perform_all_consistent
      |unfold transparent; simpl; by apply bool_decide_eq_true_2].
  - apply init_consistent in Hinit1, Hinit2.
    rewrite (getitem_result true request1), (getitem_result true request2);
      [by rewrite (pure_field_footprint request1 request2)
      |first [exact (perform_all_read_consistent _ _ _ _ Hread1 Hinit1 Hrun1)
             |exact (perform_all_read_consistent _ _ _ _ Hread2 Hinit2 Hrun2)]
      |done
      |first [exact (perform_all_read_consistent _ _ _ _ Hread1 Hinit1 Hrun1)
             |exact (perform_all_read_consistent _ _ _ _ Hread2 Hinit2 Hrun2)]
      |done].
Qed.

(** X5: after any sequence of calls on a constructed view, when
    [line_value] is [line], [line_bytes] is [ToBytes(line)], and when
    [line_bytes] and [column_num] resolve, [column_codepoint] is
    [ByteOffsetToCodepointOffset(line_bytes, column_num)]. *)
Theorem line_bytes_and_column_codepoint_follow_line_value
    request validate s0 calls s :
  __init__ request validate = Ok s0 →
  perform_all calls s0 = Some s →
  (∀ line, fst <$> getitem (u "line_value") s = Some (Ok line) →
     fst <$> getitem (u "line_bytes") s = Some (ToBytes line))
  ∧ (∀ line_bytes column_num,
       fst <$> getitem (u "line_bytes") s = Some (Ok line_bytes) →
       fst <$> getitem (u "column_num") s = Some (Ok column_num) →
       fst <$> getitem (u "column_codepoint") s
       = Some (ByteOffsetToCodepointOffset line_bytes column_num)).
Proof.
  intros Hinit Hrun.
  apply init_consistent, consistent_weaken in Hinit.
  pose proof (perform_all_consistent _ _ _ _ Hinit Hrun) as Hs.
  split.
  - intros line. rewrite !(getitem_result false request) by done.
    intros [= Hline].
    change (pure_field request (u "line_bytes"))
      with (pure_line_bytes request).
    change (pure_field request (u "line_value"))
      with (pure_line_value request) in Hline.
    unfold pure_line_bytes. by rewrite Hline.
  - intros line_bytes column_num.
    rewrite !(getitem_result false request) by done.
    intros [= Hbytes] [= Hcolumn].
    change (pure_field request (u "column_codepoint"))
      with (pure_column_codepoint request).
    change (pure_field request (u "line_bytes"))
      with (pure_line_bytes request) in Hbytes.
    change (pure_field request (u "column_num"))
      with (raw_field request (u "column_num")) in Hcolumn.
    unfold pure_column_codepoint. by rewrite Hbytes, Hcolumn.
Qed.
End reachable.

(** A view of the line [ƒøø.∫å®] after the calls [mixed_calls]. *)
Lemma view_keeps_request_and_registry_witness :
  ∃ s,
    perform_all (H := Utils.collaborators) Scenarios.mixed_calls
      (Utils.fresh Utils.multibyte_request) = Some s
    ∧ _request s = Utils.multibyte_request
    ∧ registered_cache s.
Proof.
  apply (view_keeps_request_and_registry (H := Utils.collaborators)
           Utils.multibyte_request true).
  reflexivity.
Defined.

(** After [set("start_codepoint", 5)], [line_bytes] is still the encoding
    of the line of the request. *)
Lemma read_only_field_is_function_of_request_witness :
  fst <$> getitem (H := Utils.collaborators) (u "line_bytes") Utils.overridden
  = Some (Ok (VBytes (Utils.utf8_encode Utils.multibyte_line))).
Proof.
  rewrite (read_only_field_is_function_of_request (H := Utils.collaborators)
             Utils.multibyte_request true
             (Utils.fresh Utils.multibyte_request)
             Scenarios.override_calls Utils.overridden (u "line_bytes")).
  - reflexivity.
  - reflexivity.
  - vm_compute. reflexivity.
  - not_computed.
Defined.

(** After [get("line_value")] on the lines [x = 1] and [foo.bar], the
    query is [bar]. *)
Lemma unoverridden_field_is_function_of_request_witness :
  fst <$> getitem (H := Utils.collaborators) (u "query") Scenarios.line_read
  = Some (Ok (VStr (u "bar"))).
Proof.
  rewrite (unoverridden_field_is_function_of_request
             (H := Utils.collaborators) Utils.ascii_request true
             (Utils.fresh Utils.ascii_request)
             Scenarios.read_calls Scenarios.line_read (u "query")).
  - reflexivity.
  - reflexivity.
  - reflexivity.
  - vm_compute. reflexivity.
Defined.

(** A raw field named [line_value] and a different history change
    neither [line_value] nor, without a [set], [query]. *)
Lemma derived_fields_read_four_raw_fields_witness :
  fst <$> getitem (H := Utils.collaborators) (u "line_value")
            Scenarios.line_read
  = fst <$> getitem (H := Utils.collaborators) (u "line_value")
              (Utils.fresh Scenarios.shadowed_request)
  ∧ fst <$> getitem (H := Utils.collaborators) (u "query")
              Scenarios.line_read
    = fst <$> getitem (H := Utils.collaborators) (u "query")
                (Utils.fresh Scenarios.shadowed_request).
Proof.
  assert (∀ k, k ∈ raw_reads →
            Utils.ascii_request !! k = Scenarios.shadowed_request !! k)
    as Hraw.
  { intros k Hk. unfold raw_reads in Hk.
    repeat (apply elem_of_cons in Hk as [->|Hk]);
      [reflexivity..|by apply elem_of_nil in Hk]. }
  split.
  - apply (derived_fields_read_four_raw_fields (H := Utils.collaborators)
             Utils.ascii_request Scenarios.shadowed_request true false
             (Utils.fresh Utils.ascii_request)
             (Utils.fresh Scenarios.shadowed_request)
             Scenarios.read_calls []
             Scenarios.line_read (Utils.fresh Scenarios.shadowed_request)
             (u "line_value")
             ltac:(reflexivity) ltac:(reflexivity)
             ltac:(vm_compute; reflexivity) ltac:(reflexivity) Hraw
             ltac:(is_computed)).
    left. not_computed.
  - apply (derived_fields_read_four_raw_fields (H := Utils.collaborators)
             Utils.ascii_request Scenarios.shadowed_request true false
             (Utils.fresh Utils.ascii_request)
             (Utils.fresh Scenarios.shadowed_request)
             Scenarios.read_calls []
             Scenarios.line_read (Utils.fresh Scenarios.shadowed_request)
             (u "query")
             ltac:(reflexivity) ltac:(reflexivity)
             ltac:(vm_compute; reflexivity) ltac:(reflexivity) Hraw
             ltac:(is_computed)).
    right. split; reflexivity.
Defined.

(** After [set("start_codepoint", 5)] on the line [ƒøø.∫å®]. *)
Lemma line_bytes_and_column_codepoint_follow_line_value_witness :
  fst <$> getitem (H := Utils.collaborators) (u "line_bytes") Utils.overridden
  = Some (ToBytes (Collaborators := Utils.collaborators)
            (VStr Utils.multibyte_line)).
Proof.
  apply (line_bytes_and_column_codepoint_follow_line_value
           (H := Utils.collaborators) Utils.multibyte_request true
           (Utils.fresh Utils.multibyte_request)
           Scenarios.override_calls Utils.overridden).
  - reflexivity.
  - vm_compute. reflexivity.
  - vm_compute. reflexivity.
Defined.

(** ** What a failed lookup and an override leave behind *)

Section leftovers.
Context `{Collaborators}.

(** [_CurrentLine] reads the request and leaves the state as it is. *)
Lemma current_line_pure s :
  _CurrentLine s = Some (pure_line_value (_request s), s).
Proof.
  unfold _CurrentLine, pure_line_value, request_lookup, raw_field, lift,
    mbind, M_bind, result_bind.
  destruct (_request s !! u "filepath") as [path|]; [|done].
  destruct (_request s !! u "file_data") as [file_data|]; [|done].
  destruct (py_getitem file_data path) as [file_entry|]; [|done].
  destruct (py_getitem file_entry _) as [contents|]; [|done].
  destruct (SplitLines contents) as [lines|]; [|done].
  destruct (_request s !! u "line_num") as [line_num|]; [|done].
  by destruct (py_sub line_num _).
Qed.

Lemma line_value_lookup s :
  _cached_computed s !! u "line_value" = None →
  getitem (u "line_value") s =
  match pure_line_value (_request s) with
  | Ok line =>
    Some (Ok line, stored (u "line_value") line (noted (u "line_value") s))
  | Raise e => Some (Raise e, noted (u "line_value") s)
  end.
Proof.
  intros Hkey.
  rewrite (getitem_derived _ _ _ _ Hkey (computed_key_line_value _)).
  rewrite compute_and_cache_unfold, current_line_pure. simpl.
  by destruct (pure_line_value _).
Qed.



(** The common shape of the two setters, whatever its outcome: the
    request is as before, the value is stored under [k1], every entry
    other than [k1], [k2], [query] and [line_value] is as before, a
    cached [line_value] stays, and when the setter raises, [k2] and
    [query] are as before. *)
Lemma override_frame (k1 k2 : ustr) (conv : value → value → result value)
    v s r s' :
  k1 ≠ k2 → k1 ≠ u "query" → k2 ≠ u "query" →
  u "line_value" ≠ k1 → u "line_value" ≠ k2 →
  (_ ← cache_store k1 v;
   line_value ← getitem (u "line_value");
   converted ← lift (conv line_value v);
   _ ← cache_store k2 converted;
   cache_pop (u "query")) s = Some (r, s') →
  _request s' = _request s
  ∧ _cached_computed s' !! k1 = Some v
  ∧ (∀ k, k ≠ k1 → k ≠ k2 → k ≠ u "query" → k ≠ u "line_value" →
       _cached_computed s' !! k = _cached_computed s !! k)
  ∧ (∀ w, _cached_computed s !! u "line_value" = Some w →
       _cached_computed s' !! u "line_value" = Some w)
  ∧ (∀ e, r = Raise e →
       _cached_computed s' !! k2 = _cached_computed s !! k2
       ∧ _cached_computed s' !! u "query"
         = _cached_computed s !! u "query").
Proof.
  intros H12 H1q H2q Hl1 Hl2. rewrite bind_unfold. simpl.
  rewrite bind_unfold.
  assert (∃ s2, (∃ o, getitem (u "line_value") (stored k1 v s) = Some (o, s2))
            ∧ _request s2 = _request s
            ∧ _cached_computed s2 !! k1 = Some v
            ∧ (∀ k, k ≠ k1 → k ≠ u "line_value" →
                 _cached_computed s2 !! k = _cached_computed s !! k)
            ∧ (∀ w, _cached_computed s !! u "line_value" = Some w →
                 _cached_computed s2 !! u "line_value" = Some w))
    as (s2 & [o Hline] & Hreq & Hk1 & Hother & Hlv).
  { destruct (_cached_computed (stored k1 v s) !! u "line_value")
      as [line|] eqn:Hcached.
    - exists (stored k1 v s). rewrite (getitem_cached _ _ _ Hcached).
      split; [by eexists|]. split; [done|]. simpl.
      split; [apply lookup_insert_eq|]. split.
      + intros k Hk _. by rewrite lookup_insert_ne.
      + intros w Hw. by rewrite lookup_insert_ne.
    - rewrite (line_value_lookup _ Hcached). simpl in Hcached.
      rewrite lookup_insert_ne in Hcached by done.
      destruct (pure_line_value _) as [line|e].
      + eexists. split; [by eexists|]. split; [done|]. simpl.
        split; [by rewrite lookup_insert_ne, lookup_insert_eq|]. split.
        * intros k Hk Hl. by rewrite !lookup_insert_ne.
        * intros w Hw. congruence.
      + eexists. split; [by eexists|]. split; [done|]. simpl.
        split; [apply lookup_insert_eq|]. split.
        * intros k Hk _. by rewrite lookup_insert_ne.
        * intros w Hw. congruence. }
  unfold stored, with_cache in Hline. rewrite Hline.
  destruct o as [line|e].
  - unfold lift, cache_store, cache_pop, mbind, M_bind.
    destruct (conv line v) as [x|e]; intros [= <- <-]; simpl.
    + split; [done|]. split.
      { by rewrite lookup_delete_ne, lookup_insert_ne. }
      split; [|split; [|done]].
      * intros k Hne1 Hne2 Hq Hl.
        rewrite lookup_delete_ne, lookup_insert_ne by done. by apply Hother.
      * intros w Hw.
        rewrite lookup_delete_ne, lookup_insert_ne by (done || key_ne).
        by apply Hlv.
    + split; [done|]. split; [done|]. split; [|split].
      * intros k Hne1 Hne2 Hq Hl. by apply Hother.
      * done.
      * intros e' _. split; apply Hother; done || key_ne.
  - intros [= <- <-]. split; [done|]. split; [done|]. split; [|split].
    + intros k Hne1 Hne2 Hq Hl. by apply Hother.
    + done.
    + intros e' _. split; apply Hother; done || key_ne.
Qed.

(** X8: a [set] of a start field that raises (because [line_value] or
    the conversion raises) has stored the new value all the same, and
    leaves the counterpart and [query] as they were: the two start fields
    are then not converted from each other, and a cached [query] is not
    dropped. *)
Theorem failed_override_is_partial v s e s' :
  (__setitem__ (u "start_column") v s = Some (Raise e, s') →
   _cached_computed s' !! u "start_column" = Some v
   ∧ _cached_computed s' !! u "start_codepoint"
     = _cached_computed s !! u "start_codepoint"
   ∧ _cached_computed s' !! u "query" = _cached_computed s !! u "query")
  ∧ (__setitem__ (u "start_codepoint") v s = Some (Raise e, s') →
     _cached_computed s' !! u "start_codepoint" = Some v
     ∧ _cached_computed s' !! u "start_column"
       = _cached_computed s !! u "start_column"
     ∧ _cached_computed s' !! u "query" = _cached_computed s !! u "query").
Proof.
  split; unfold __setitem__; registry; intros Hset.
  - apply (override_frame (u "start_column") (u "start_codepoint")) in Hset
      as (_ & Hk1 & _ & _ & Hraise); try key_ne.
    split; [done|]. by apply (Hraise e).
  - apply (override_frame (u "start_codepoint") (u "start_column")) in Hset
      as (_ & Hk1 & _ & _ & Hraise); try key_ne.
    split; [done|]. by apply (Hraise e).
Qed.

(** X9: whatever its outcome, [set] leaves the request as it is, and
    changes no cache entry other than [start_codepoint], [start_column]
    and [query], except that it may add [line_value]; a cached
    [line_value] stays. *)
Theorem setitem_frame key v s r s' :
  __setitem__ key v s = Some (r, s') →
  _request s' = _request s
  ∧ (∀ k, k ∉ overridable → k ≠ u "line_value" →
       _cached_computed s' !! k = _cached_computed s !! k)
  ∧ (∀ w, _cached_computed s !! u "line_value" = Some w →
       _cached_computed s' !! u "line_value" = Some w).
Proof.
  unfold __setitem__.
  assert (∀ k, k ∉ overridable →
            k ≠ u "start_codepoint" ∧ k ≠ u "start_column" ∧ k ≠ u "query")
    as Hover.
  { intros k Hk. repeat split; intros ->; apply Hk; is_computed. }
  destruct (decide (key ∈ computed_names)) as [Hin|Hno].
  - computed_cases Hin; registry; try by intros [= <- <-].
    + intros Hset.
      apply (override_frame (u "start_codepoint") (u "start_column")) in Hset
        as (Hreq & _ & Hother & Hlv & _); try key_ne.
      split; [done|]. split; [|done]. intros k Hk Hl.
      destruct (Hover k Hk) as (? & ? & ?). by apply Hother.
    + intros Hset.
      apply (override_frame (u "start_column") (u "start_codepoint")) in Hset
        as (Hreq & _ & Hother & Hlv & _); try key_ne.
      split; [done|]. split; [|done]. intros k Hk Hl.
      destruct (Hover k Hk) as (? & ? & ?). by apply Hother.
  - rewrite computed_key_other by done. by intros [= <- <-].
Qed.

(** X11: on a view that caches registry keys only, when [has(key)] is
    false, [get(key)] raises [KeyError], [get_or(key, default)] returns
    the default and [set(key, v)] raises [ValueError], each in an
    unchanged state. *)
Theorem absent_key_is_rejected key s :
  registered_cache s →
  __contains__ key s = Some (Ok false, s) →
  getitem key s = Some (Raise KeyError, s)
  ∧ (∀ default, get key default s = Some (Ok default, s))
  ∧ (∀ v, __setitem__ key v s = Some (Raise ValueError, s)).
Proof.
  intros Hreg. unfold __contains__. intros [= Hhas].
  apply orb_false_iff in Hhas as [Hcomputed Hraw].
  apply bool_decide_eq_false in Hcomputed, Hraw.
  rewrite computed_key_is_Some in Hcomputed.
  assert (_cached_computed s !! key = None) as Hkey.
  { destruct (_cached_computed s !! key) eqn:Hkey; [|done].
    destruct Hcomputed. apply Hreg. by eexists. }
  assert (getitem key s = Some (Raise KeyError, s)) as Hget.
  { rewrite getitem_raw, request_lookup_unfold by done.
    destruct (_request s !! key) eqn:Hreq; [|done].
    destruct Hraw. by eexists. }
  split; [done|]. split.
  - intros default. unfold get, try_except. by rewrite Hget.
  - intros v. unfold __setitem__. by rewrite computed_key_other.
Qed.

(** X12: with nothing cached at the keys it reads, [get("filetypes")]
    raises [KeyError] when [file_data] has no entry for [filepath] and
    when that entry has no [filetypes], and caches nothing then;
    otherwise it returns the entry's [filetypes] and caches them. *)
Theorem filetypes_lookup_raises_on_missing_entry s path file_data :
  _cached_computed s !! u "filetypes" = None →
  _cached_computed s !! u "filepath" = None →
  _cached_computed s !! u "file_data" = None →
  _request s !! u "filepath" = Some (VStr path) →
  _request s !! u "file_data" = Some (VDict file_data) →
  (file_data !! path = None →
   getitem (u "filetypes") s
   = Some (Raise KeyError, noted (u "filetypes") s))
  ∧ (∀ file_entry,
       file_data !! path = Some (VDict file_entry) →
       getitem (u "filetypes") s =
       match file_entry !! u "filetypes" with
       | Some filetypes =>
         Some (Ok filetypes,
               stored (u "filetypes") filetypes (noted (u "filetypes") s))
       | None => Some (Raise KeyError, noted (u "filetypes") s)
       end).
Proof.
  intros Hkey Hcpath Hcdata Hpath Hdata.
  rewrite (filetypes_run _ Hkey Hcpath Hcdata).
  unfold request_filetypes. rewrite Hpath, Hdata. simpl. split.
  - intros Hentry. by rewrite Hentry.
  - intros file_entry Hentry. rewrite Hentry. simpl.
    by destruct (file_entry !! u "filetypes").
Qed.

(** After an override, the query is computed from the overridden start. *)
Lemma query_after_override (k1 k2 : ustr)
    (conv : value → value → result value) v s s' line start cc s3 :
  (k1 = u "start_codepoint" ∧ k2 = u "start_column" ∧ v = VInt start
   ∨ k1 = u "start_column" ∧ k2 = u "start_codepoint"
     ∧ conv (VStr line) v = Ok (VInt start)) →
  (_ ← cache_store k1 v;
   line_value ← getitem (u "line_value");
   converted ← lift (conv line_value v);
   _ ← cache_store k2 converted;
   cache_pop (u "query")) s = Some (Ok (), s') →
  _cached_computed s' !! u "line_value" = Some (VStr line) →
  getitem (u "column_codepoint") (noted (u "query") s')
  = Some (Ok (VInt cc), s3) →
  getitem (u "query") s'
  = Some (Ok (VStr (seq_slice line (start - 1) (cc - 1))),
          stored (u "query") (VStr (seq_slice line (start - 1) (cc - 1))) s3).
Proof.
  intros Hkeys Hset Hline Hcolumn.
  assert (_cached_computed s' !! u "start_codepoint" = Some (VInt start)
          ∧ _cached_computed s' !! u "query" = None) as [Hstart Hquery].
  { destruct Hkeys as [(-> & -> & ->)|(-> & -> & Hconv)];
      apply override_run in Hset
        as (line' & x & Hline' & Hconv' & Hk1 & Hk2 & Hq); try key_ne;
      [done|].
    rewrite Hline in Hline'. injection Hline' as <-.
    rewrite Hconv in Hconv'. by injection Hconv' as <-. }
  rewrite (getitem_derived _ _ _ _ Hquery (computed_key_query _)).
  rewrite compute_and_cache_unfold. unfold _Query.
  rewrite (bind_Ok _ _ _ _ _
             (getitem_cached (u "line_value") (noted (u "query") s') _ Hline)).
  rewrite (bind_Ok _ _ _ _ _
             (getitem_cached (u "start_codepoint") (noted (u "query") s') _
                Hstart)).
  unfold lift at 1. rewrite bind_unfold. simpl.
  by rewrite (bind_Ok _ _ _ _ _ Hcolumn).
Qed.

(** X10: after a [set] of a start field that returns, [get("query")]
    is computed from the overridden start, not taken from an earlier
    cached query: it is [line_value[start - 1 : column_codepoint - 1]],
    where [start] is the overriding codepoint, or the conversion of the
    overriding column. *)
Theorem query_follows_override v s s' line start cc s3 :
  _cached_computed s' !! u "line_value" = Some (VStr line) →
  getitem (u "column_codepoint") (noted (u "query") s')
  = Some (Ok (VInt cc), s3) →
  (__setitem__ (u "start_column") v s = Some (Ok (), s') →
   ByteOffsetToCodepointOffset (VStr line) v = Ok (VInt start) →
   getitem (u "query") s'
   = Some (Ok (VStr (seq_slice line (start - 1) (cc - 1))),
           stored (u "query")
             (VStr (seq_slice line (start - 1) (cc - 1))) s3))
  ∧ (__setitem__ (u "start_codepoint") (VInt start) s = Some (Ok (), s') →
     getitem (u "query") s'
     = Some (Ok (VStr (seq_slice line (start - 1) (cc - 1))),
             stored (u "query")
               (VStr (seq_slice line (start - 1) (cc - 1))) s3)).
Proof.
  intros Hline Hcolumn.
  split; unfold __setitem__; registry; intros Hset.
  - intros Hconv.
    apply (query_after_override (u "start_column") (u "start_codepoint")
             ByteOffsetToCodepointOffset v s); auto.
  - apply (query_after_override (u "start_codepoint") (u "start_column")
             CodepointOffsetToByteOffset (VInt start) s); auto.
Qed.
End leftovers.


(** [set("start_column", 3)] fails for a file without entry and leaves 3
    in the cache. *)
Lemma failed_override_is_partial_witness :
  __setitem__ (H := Utils.collaborators) (u "start_column") (VInt 3)
    (Utils.fresh Utils.orphan_request)
  = Some (Raise KeyError, Scenarios.failed_override)
  ∧ _cached_computed Scenarios.failed_override !! u "start_column"
    = Some (VInt 3)
  ∧ _cached_computed Scenarios.failed_override !! u "start_codepoint" = None.
Proof.
  assert (__setitem__ (H := Utils.collaborators) (u "start_column") (VInt 3)
            (Utils.fresh Utils.orphan_request)
          = Some (Raise KeyError, Scenarios.failed_override)) as Hset
    by (vm_compute; reflexivity).
  split; [exact Hset|].
  destruct (failed_override_is_partial (H := Utils.collaborators) (VInt 3)
              (Utils.fresh Utils.orphan_request) KeyError
              Scenarios.failed_override) as [Hcolumn _].
  destruct (Hcolumn Hset) as (Hstored & Hcounterpart & _).
  split; [exact Hstored|]. rewrite Hcounterpart. reflexivity.
Defined.

(** The failed [set("start_column", 3)] leaves the request as it is. *)
Lemma setitem_frame_witness :
  _request Scenarios.failed_override = Utils.orphan_request
  ∧ _cached_computed Scenarios.failed_override !! u "filetypes" = None.
Proof.
  destruct (setitem_frame (H := Utils.collaborators) (u "start_column")
              (VInt 3) (Utils.fresh Utils.orphan_request) (Raise KeyError)
              Scenarios.failed_override ltac:(vm_compute; reflexivity))
    as (Hrequest & Hother & _).
  split; [exact Hrequest|].
  rewrite (Hother (u "filetypes")); [reflexivity|not_computed|key_ne].
Defined.

(** [no_such_key] is neither derived nor in the request. *)
Lemma absent_key_is_rejected_witness :
  getitem (H := Utils.collaborators) (u "no_such_key")
    (Utils.fresh Utils.ascii_request)
  = Some (Raise KeyError, Utils.fresh Utils.ascii_request).
Proof.
  apply (absent_key_is_rejected (H := Utils.collaborators) (u "no_such_key")
           (Utils.fresh Utils.ascii_request)).
  - intros key [v Hv]. simpl in Hv. rewrite lookup_empty in Hv. discriminate.
  - vm_compute. reflexivity.
Defined.

(** The file of the request has no entry in [file_data]. *)
Lemma filetypes_lookup_raises_on_missing_entry_witness :
  getitem (H := Utils.collaborators) (u "filetypes")
    (Utils.fresh Utils.orphan_request)
  = Some (Raise KeyError,
          noted (u "filetypes") (Utils.fresh Utils.orphan_request)).
Proof.
  apply (filetypes_lookup_raises_on_missing_entry (H := Utils.collaborators)
           (Utils.fresh Utils.orphan_request) (u "a.py") ∅);
    reflexivity.
Defined.

(** After [set("start_codepoint", 5)] on the line [ƒøø.∫å®], the query is
    [∫å®]. *)
Lemma query_follows_override_witness :
  fst <$> getitem (H := Utils.collaborators) (u "query") Utils.overridden
  = Some (Ok (VStr [8747; 229; 174]%N)).
Proof.
  destruct (query_follows_override (H := Utils.collaborators) (VInt 5)
              (Utils.fresh Utils.multibyte_request) Utils.overridden
              Utils.multibyte_line 5 8 Scenarios.overridden_with_column
              ltac:(reflexivity) ltac:(vm_compute; reflexivity))
    as [_ Hquery].
  rewrite (Hquery ltac:(vm_compute; reflexivity)). reflexivity.
Defined.

(** ** The default start positions, and a malformed filetype list *)

Section defaults.
Context `{Collaborators}.

(** X6: as long as no [set] is called, the default start positions
    denote the same position: when [line_value] is [line] and
    [start_codepoint] is [codepoint], [start_column] is
    [CodepointOffsetToByteOffset(ToUnicode(line), codepoint)]. *)
Theorem default_start_positions_agree
    request validate s0 calls s line unicode_line codepoint :
  __init__ request validate = Ok s0 →
  forallb is_read calls = true →
  perform_all calls s0 = Some s →
  fst <$> getitem (u "line_value") s = Some (Ok line) →
  ToUnicode line = Ok unicode_line →
  fst <$> getitem (u "start_codepoint") s = Some (Ok codepoint) →
  fst <$> getitem (u "start_column") s
  = Some (CodepointOffsetToByteOffset unicode_line codepoint).
Proof.
  intros Hinit Hread Hrun. apply init_consistent in Hinit.
  pose proof (perform_all_read_consistent _ _ _ _ Hread Hinit Hrun) as Hs.
  rewrite !(getitem_result true request) by done.
  change (pure_field request (u "line_value"))
    with (pure_line_value request).
  change (pure_field request (u "start_codepoint"))
    with (pure_start_codepoint request).
  change (pure_field request (u "start_column"))
    with (pure_start_column request).
  intros [= Hline] Hunicode [= Hcodepoint]. f_equal.
  unfold pure_start_column, pure_start_codepoint in *.
  rewrite Hline in *. simpl in *.
  destruct (raw_field request (u "column_num")) as [column_num|];
    [|done]. simpl in *.
  destruct (pure_first_filetype request) as [filetype|]; [|done]. simpl in *.
  unfold CompletionStartColumn. by rewrite Hunicode, Hcodepoint.
Qed.

(** X13: [first_filetype] swallows [KeyError] and [IndexError] only:
    when indexing the declared filetypes raises another exception (a
    [TypeError] for [None] or a number), [get("first_filetype")] raises
    it, and so does [get_or("first_filetype", default)]. *)
Theorem first_filetype_propagates_other_errors s filetypes e :
  _cached_computed s !! u "first_filetype" = None →
  _cached_computed s !! u "filetypes" = None →
  _cached_computed s !! u "filepath" = None →
  _cached_computed s !! u "file_data" = None →
  request_filetypes (_request s) = Ok filetypes →
  py_getitem filetypes (VInt 0) = Raise e →
  e ≠ KeyError → e ≠ IndexError →
  fst <$> getitem (u "first_filetype") s = Some (Raise e)
  ∧ ∀ default, fst <$> get (u "first_filetype") default s = Some (Raise e).
Proof.
  intros Hkey Hfts Hpath Hdata Hdecl Hfirst Hke Hie.
  assert (fst <$> getitem (u "first_filetype") s = Some (Raise e)) as Hget.
  { rewrite (first_filetype_run _ Hkey), filetypes_run by done.
    simpl. rewrite Hdecl, Hfirst. by destruct e. }
  split; [done|]. intros default. unfold get, try_except.
  destruct (getitem (u "first_filetype") s) as [[r s']|]; [|done].
  injection Hget as ->. by rewrite bool_decide_eq_false_2.
Qed.
End defaults.

(** On the line [foo.bar] the default start column is the byte offset of
    the default start codepoint 5. *)
Lemma default_start_positions_agree_witness :
  fst <$> getitem (H := Utils.collaborators) (u "start_column")
            Scenarios.line_read
  = Some (Ok (VInt 5)).
Proof.
  rewrite (default_start_positions_agree (H := Utils.collaborators)
             Utils.ascii_request true (Utils.fresh Utils.ascii_request)
             Scenarios.read_calls Scenarios.line_read
             (VStr (u "foo.bar")) (VStr (u "foo.bar")) (VInt 5)).
  - reflexivity.
  - reflexivity.
  - reflexivity.
  - reflexivity.
  - vm_compute. reflexivity.
  - reflexivity.
  - vm_compute. reflexivity.
Defined.

(** A file that declares [None] as its filetypes. *)
Lemma first_filetype_propagates_other_errors_witness :
  fst <$> getitem (H := Utils.collaborators) (u "first_filetype")
            (Utils.fresh Scenarios.null_filetypes_request)
  = Some (Raise TypeError).
Proof.
  apply (first_filetype_propagates_other_errors (H := Utils.collaborators)
           (Utils.fresh Scenarios.null_filetypes_request) VNone TypeError);
    try reflexivity; discriminate.
Defined.

(** ** A failing current line *)

Section failing_line.
Context `{Collaborators}.

(** X14: when [get("line_value")] raises (a missing [filepath] or file
    entry, a line out of range), the fields computed from the line raise
    the same exception: [line_bytes] and [column_codepoint] after any
    sequence of calls on a constructed view, and [start_codepoint],
    [start_column] and [query] as long as no [set] was called. *)
Theorem line_value_failure_propagates request validate s0 calls s e :
  __init__ request validate = Ok s0 →
  perform_all calls s0 = Some s →
  fst <$> getitem (u "line_value") s = Some (Raise e) →
  (∀ key, key ∈ [u "line_bytes"; u "column_codepoint"] →
     fst <$> getitem key s = Some (Raise e))
  ∧ (forallb is_read calls = true →
     ∀ key, key ∈ overridable → fst <$> getitem key s = Some (Raise e)).
Proof.
  intros Hinit Hrun. pose proof (init_consistent _ _ _ Hinit) as Hpristine.
  pose proof (perform_all_consistent _ _ _ _
                (consistent_weaken _ _ Hpristine) Hrun) as Hs.
  rewrite (getitem_result false request) by done.
  change (pure_field request (u "line_value"))
    with (pure_line_value request).
  intros [= Hline].
  assert (pure_line_bytes request = Raise e) as Hbytes.
  { unfold pure_line_bytes. by rewrite Hline. }
  assert (pure_column_codepoint request = Raise e) as Hcolumn.
  { unfold pure_column_codepoint. by rewrite Hbytes. }
  split.
  - intros key Hkey.
    repeat (apply elem_of_cons in Hkey as [->|Hkey]);
      [..|by apply elem_of_nil in Hkey];
      (rewrite (getitem_result false request);
       [f_equal; first [exact Hbytes | exact Hcolumn] | done | reflexivity]).
  - intros Hread key Hkey.
    pose proof (perform_all_read_consistent _ _ _ _ Hread Hpristine Hrun)
      as Hs'.
    rewrite (getitem_result true request) by done. f_equal.
    unfold overridable in Hkey.
    repeat (apply elem_of_cons in Hkey as [->|Hkey]);
      [..|by apply elem_of_nil in Hkey].
    + change (pure_start_codepoint request = Raise e).
      unfold pure_start_codepoint. by rewrite Hline.
    + change (pure_start_column request = Raise e).
      unfold pure_start_column. by rewrite Hline.
    + change (pure_query request = Raise e).
      unfold pure_query. by rewrite Hline.
Qed.
End failing_line.

(** Line 5 of a file of two lines: [query] raises [IndexError]. *)
Lemma line_value_failure_propagates_witness :
  fst <$> getitem (H := Utils.collaborators) (u "query")
            (Utils.fresh Scenarios.beyond_request)
  = Some (Raise IndexError).
Proof.
  destruct (line_value_failure_propagates (H := Utils.collaborators)
              Scenarios.beyond_request true
              (Utils.fresh Scenarios.beyond_request) []
              (Utils.fresh Scenarios.beyond_request) IndexError
              ltac:(reflexivity) ltac:(reflexivity)
              ltac:(vm_compute; reflexivity)) as [_ Hquery].
  apply Hquery; [reflexivity|is_computed].
Defined.
